(** * SWLog: a synchronous process-wide logger (src/runtime/SWLog.cpp)

    Shallow embedding of the [__linux__] build of [SWLog::Init],
    [SWLog::UnInit], [SWLog::GetLogTime] and [SWLog::Log], with
    [LOG_OUTPUT] defined (the source defines it itself when it is not).

    The four static members of the class form the logger state; the
    operating system the code talks to (working directory, directories,
    files, descriptor table, standard output, clock, thread id) is a
    second explicit state, and every system call the code makes is
    recorded in a trace.  All operations live in one small state monad
    over this world.  The model is sequential: the [std::mutex] that
    serialises the emission step across threads is not represented. *)

From Stdlib Require Import ZArith String Ascii List Lia Bool.
From stdpp Require Import gmap strings.

Local Open Scope string_scope.
Local Open Scope Z_scope.

(** ** Text rendering used by the formatting helpers *)

Module Text.

Definition digit_char (d : Z) : ascii := ascii_of_nat (48 + Z.to_nat d)%nat.

(** Decimal digits of a non-negative number, most significant first,
    built from the least significant end as [printf] does. *)
Fixpoint udec_aux (fuel : nat) (n : Z) (acc : string) : string :=
  match fuel with
  | O => acc
  | S k =>
      let acc' := String (digit_char (n mod 10)) acc in
      if n / 10 =? 0 then acc' else udec_aux k (n / 10) acc'
  end.

Definition udec (n : Z) : string :=
  udec_aux (S (Z.to_nat (Z.log2 n))) n "".

Fixpoint fill (c : ascii) (k : nat) : string :=
  match k with
  | O => ""
  | S k' => String c (fill c k')
  end.

(** Right-justify [s] in a field of [w] characters. *)
Definition pad_left (c : ascii) (w : nat) (s : string) : string :=
  fill c (w - String.length s)%nat ++ s.

(** A signed decimal in a field of width [w], zero- or space-padded. *)
Definition sdec (zero : bool) (w : nat) (n : Z) : string :=
  if n <? 0 then
    if zero then "-" ++ pad_left "0" (w - 1)%nat (udec (- n))
    else pad_left " " w ("-" ++ udec (- n))
  else pad_left (if zero then "0"%char else " "%char) w (udec n).

(** What a variadic callee reads when it fetches an [unsigned int] or an
    [int] from an integer argument. *)
Definition wrap_u32 (n : Z) : Z := n mod 2 ^ 32.
Definition wrap_i32 (n : Z) : Z := (n + 2 ^ 31) mod 2 ^ 32 - 2 ^ 31.

(** [w] decimal digits of [n], most significant first: the reference
    rendering of a fixed-width field. *)
Fixpoint fixed_dec (w : nat) (n : Z) : string :=
  match w with
  | O => ""
  | S k => fixed_dec k (n / 10) ++ String (digit_char (n mod 10)) ""
  end.

End Text.

(** ** [format_string] of Common.h *)

Inductive fmt_arg : Type :=
| ArgStr (s : string)
| ArgInt (n : Z).

Definition is_digit (c : ascii) : bool :=
  let n := Z.of_nat (nat_of_ascii c) in (48 <=? n) && (n <=? 57).

Definition digit_val (c : ascii) : nat := (nat_of_ascii c - 48)%nat.

(** Modelled from the spec: Common.h, which declares [format_string], is
    not part of the sources; the spec describes it as printf-style
    interpolation.  The model covers what this file uses: literal text,
    [%%], and the conversions [%s], [%d] and [%u] with an optional [0]
    flag and a decimal field width.  An argument of the wrong kind or a
    missing argument (undefined in C) prints nothing; an unknown
    conversion character is copied.  [dir] is [None] between directives
    and [Some (zero, width)] inside one. *)
Fixpoint format_go (f : string) (dir : option (bool * nat))
    (args : list fmt_arg) : string :=
  match f with
  | EmptyString => ""
  | String c f' =>
      match dir with
      | None =>
          if Ascii.eqb c "%" then format_go f' (Some (false, O)) args
          else String c (format_go f' None args)
      | Some (zero, w) =>
          if Ascii.eqb c "0" && negb zero && Nat.eqb w 0 then
            format_go f' (Some (true, O)) args
          else if is_digit c then
            format_go f' (Some (zero, (10 * w + digit_val c)%nat)) args
          else if Ascii.eqb c "%" then String "%" (format_go f' None args)
          else if Ascii.eqb c "s" then
            match args with
            | ArgStr s :: rest =>
                Text.pad_left " " w s ++ format_go f' None rest
            | _ :: rest => format_go f' None rest
            | [] => format_go f' None []
            end
          else if Ascii.eqb c "d" then
            match args with
            | ArgInt n :: rest =>
                Text.sdec zero w (Text.wrap_i32 n) ++ format_go f' None rest
            | _ :: rest => format_go f' None rest
            | [] => format_go f' None []
            end
          else if Ascii.eqb c "u" then
            match args with
            | ArgInt n :: rest =>
                Text.pad_left (if zero then "0"%char else " "%char) w
                  (Text.udec (Text.wrap_u32 n)) ++ format_go f' None rest
            | _ :: rest => format_go f' None rest
            | [] => format_go f' None []
            end
          else String c (format_go f' None args)
      end
  end.

Definition format_string (fmt : string) (args : list fmt_arg) : string :=
  format_go fmt None args.

(** [std::string::substr(pos, n)] for [pos] within the string (the only
    use in the source has [pos = 0]): at most [n] characters from [pos]. *)
Definition substr (pos n : nat) (s : string) : string :=
  String.substring pos n s.

(** The two-character line terminator written by the source. *)
Definition CRLF : string :=
  String (ascii_of_nat 13) (String (ascii_of_nat 10) EmptyString).

(** ** Broken-down time and [strftime] *)

Record timeval : Type := { tv_sec : Z; tv_usec : Z }.

Record tm : Type := {
  tm_sec : Z; tm_min : Z; tm_hour : Z;
  tm_mday : Z; tm_mon : Z; tm_year : Z
}.

(** The conversions of the C library's [strftime] that the source uses:
    [%Y] is the year as a decimal number, [%m %d %H %M %S] are two-digit
    zero-padded fields.  [pct] records a pending percent sign. *)
Fixpoint strftime_go (f : string) (pct : bool) (t : tm) : string :=
  match f with
  | EmptyString => ""
  | String c f' =>
      if pct then
        (if Ascii.eqb c "Y" then Text.sdec false 0 (tm_year t + 1900)
         else if Ascii.eqb c "m" then Text.sdec true 2 (tm_mon t + 1)
         else if Ascii.eqb c "d" then Text.sdec true 2 (tm_mday t)
         else if Ascii.eqb c "H" then Text.sdec true 2 (tm_hour t)
         else if Ascii.eqb c "M" then Text.sdec true 2 (tm_min t)
         else if Ascii.eqb c "S" then Text.sdec true 2 (tm_sec t)
         else String c "")
        ++ strftime_go f' false t
      else if Ascii.eqb c "%" then strftime_go f' true t
      else String c (strftime_go f' false t)
  end.

(** [strftime(buffer, maxsize, fmt, &t)] into a zeroed buffer: the text
    when it fits together with its terminator, nothing otherwise. *)
Definition strftime (maxsize : nat) (fmt : string) (t : tm) : string :=
  let s := strftime_go fmt false t in
  if (String.length s <? maxsize)%nat then s else "".

(** ** The operating system seen by the logger *)

Record OS : Type := {
  os_cwd : string;                 (* result of getcwd, no trailing slash *)
  os_dirs : gset string;           (* existing directories, each ending in a slash *)
  os_files : gmap string string;   (* regular files and their contents *)
  os_fds : gmap Z string;          (* open descriptors and the file each refers to *)
  os_fd_limit : nat;               (* descriptors 3, 4, ... the process may hold *)
  os_stdout : string;              (* what was printed on standard output *)
  os_now : timeval;                (* the clock *)
  os_localtime : Z -> tm;          (* local broken-down time of a second count *)
  os_tid : Z                       (* identifier of the calling thread *)
}.

(** System calls, in the order they were made, with their arguments and
    (where the logger's control flow or resources depend on it) result. *)
Inductive event : Type :=
| EvGetcwd
| EvAccess (path : string)
| EvMkdir (path : string)
| EvOpen (path : string) (result : Z)
| EvClose (fd : Z)
| EvLseek (fd : Z)
| EvWrite (fd : Z) (data : string)
| EvFsync (fd : Z)
| EvPrintf (data : string)
| EvGettimeofday
| EvPthreadSelf.

(** The directory part of a path: everything up to and including the
    last slash that is not the final character. *)
Fixpoint dirname_go (p : string) : option string :=
  match p with
  | EmptyString => None
  | String c r =>
      match dirname_go r with
      | Some d => Some (String c d)
      | None =>
          if Ascii.eqb c "/" && negb (String.eqb r "")
          then Some (String c "") else None
      end
  end.

Definition dirname (p : string) : string :=
  match dirname_go p with Some d => d | None => "" end.

(** Lowest descriptor from [fd] on, among [n] candidates, that is free. *)
Fixpoint fresh_fd (fds : gmap Z string) (fd : Z) (n : nat) : option Z :=
  match n with
  | O => None
  | S k =>
      match fds !! fd with
      | None => Some fd
      | Some _ => fresh_fd fds (fd + 1) k
      end
  end.

Module Sys.

Definition set_dirs (d : gset string) (o : OS) : OS :=
  {| os_cwd := os_cwd o; os_dirs := d; os_files := os_files o;
     os_fds := os_fds o; os_fd_limit := os_fd_limit o;
     os_stdout := os_stdout o; os_now := os_now o;
     os_localtime := os_localtime o; os_tid := os_tid o |}.

Definition set_files (f : gmap string string) (o : OS) : OS :=
  {| os_cwd := os_cwd o; os_dirs := os_dirs o; os_files := f;
     os_fds := os_fds o; os_fd_limit := os_fd_limit o;
     os_stdout := os_stdout o; os_now := os_now o;
     os_localtime := os_localtime o; os_tid := os_tid o |}.

Definition set_fds (f : gmap Z string) (o : OS) : OS :=
  {| os_cwd := os_cwd o; os_dirs := os_dirs o; os_files := os_files o;
     os_fds := f; os_fd_limit := os_fd_limit o;
     os_stdout := os_stdout o; os_now := os_now o;
     os_localtime := os_localtime o; os_tid := os_tid o |}.

Definition set_stdout (s : string) (o : OS) : OS :=
  {| os_cwd := os_cwd o; os_dirs := os_dirs o; os_files := os_files o;
     os_fds := os_fds o; os_fd_limit := os_fd_limit o;
     os_stdout := s; os_now := os_now o;
     os_localtime := os_localtime o; os_tid := os_tid o |}.

(** [access(path, F_OK)] *)
Definition access (path : string) (o : OS) : Z :=
  if bool_decide (path ∈ os_dirs o) then 0
  else match os_files o !! path with Some _ => 0 | None => -1 end.

(** [mkdir(path, S_IRWXU)]: fails when the path exists or its parent
    directory does not. *)
Definition mkdir (path : string) (o : OS) : Z * OS :=
  if access path o =? 0 then (-1, o)
  else if bool_decide (dirname path ∈ os_dirs o)
       then (0, set_dirs ({[path]} ∪ os_dirs o) o)
       else (-1, o).

(** [open(path, O_CREAT | O_APPEND | O_RDWR, S_IRWXU)]: fails on a
    directory, in a missing directory, or when no descriptor is free;
    creates the file when it does not exist. *)
Definition open (path : string) (o : OS) : Z * OS :=
  if bool_decide (path ∈ os_dirs o) then (-1, o)
  else if bool_decide (dirname path ∈ os_dirs o) then
    match fresh_fd (os_fds o) 3 (os_fd_limit o) with
    | None => (-1, o)
    | Some fd =>
        let files :=
          match os_files o !! path with
          | Some _ => os_files o
          | None => <[path := ""]> (os_files o)
          end in
        (fd, set_fds (<[fd := path]> (os_fds o)) (set_files files o))
    end
  else (-1, o).

(** [close(fd)] *)
Definition close (fd : Z) (o : OS) : Z * OS :=
  match os_fds o !! fd with
  | Some _ => (0, set_fds (delete fd (os_fds o)) o)
  | None => (-1, o)
  end.

(** [lseek(fd, 0, SEEK_SET)]: the descriptors are opened with
    [O_APPEND], so the offset never decides where data lands and the
    model keeps none. *)
Definition lseek (fd : Z) (o : OS) : Z :=
  match os_fds o !! fd with Some _ => 0 | None => -1 end.

(** [write(fd, data, length)] on an [O_APPEND] descriptor. *)
Definition write (fd : Z) (data : string) (o : OS) : Z * OS :=
  match os_fds o !! fd with
  | Some path =>
      let old := match os_files o !! path with Some c => c | None => "" end in
      (Z.of_nat (String.length data),
       set_files (<[path := old ++ data]> (os_files o)) o)
  | None => (-1, o)
  end.

(** [fsync(fd)] *)
Definition fsync (fd : Z) (o : OS) : Z :=
  match os_fds o !! fd with Some _ => 0 | None => -1 end.

End Sys.

(** ** Logger state *)

(** Modelled from the spec: SWLog.h, which declares [SWLOG_LEVEL], is not
    part of the sources.  The spec gives the enumeration as
    None(0) < Error < Warning < Info; the values are those of a C
    enumeration without initialisers. *)
Inductive SWLOG_LEVEL : Type := LOG_NONE | LOG_ERROR | LOG_WARNING | LOG_INFO.

Definition level_value (l : SWLOG_LEVEL) : Z :=
  match l with
  | LOG_NONE => 0
  | LOG_ERROR => 1
  | LOG_WARNING => 2
  | LOG_INFO => 3
  end.

Definition MAX_LINE_LENGTH : nat := 256.

(** The static data members of [SWLog]. *)
Record LoggerState : Type := {
  m_bToFile : bool;
  m_bTruncateLongLog : bool;
  m_iLogFile : Z;
  m_nLogLevel : SWLOG_LEVEL
}.

(** Their initialisers (lines 21-28 of the source). *)
Definition initial_logger : LoggerState :=
  {| m_bToFile := false; m_bTruncateLongLog := false;
     m_iLogFile := -1; m_nLogLevel := LOG_NONE |}.

Record World : Type := {
  logger : LoggerState;
  os : OS;
  trace : list event
}.

(** ** The monad of logger operations *)

Definition M (A : Type) : Type := World -> A * World.

Definition ret {A : Type} (a : A) : M A := fun w => (a, w).

Definition bind {A B : Type} (m : M A) (f : A -> M B) : M B :=
  fun w => let (a, w') := m w in f a w'.

Notation "'let*' x ':=' m 'in' k" := (bind m (fun x => k))
  (at level 10, x name, m at level 100, k at level 200).
Notation "m '>>' k" := (bind m (fun _ => k))
  (at level 100, k at level 200, right associativity).

Definition read {A : Type} (f : LoggerState -> A) : M A :=
  fun w => (f (logger w), w).

Definition update (f : LoggerState -> LoggerState) : M unit :=
  fun w => (tt, {| logger := f (logger w); os := os w; trace := trace w |}).

Definition set_m_bToFile (b : bool) : M unit :=
  update (fun s =>
    {| m_bToFile := b; m_bTruncateLongLog := m_bTruncateLongLog s;
       m_iLogFile := m_iLogFile s; m_nLogLevel := m_nLogLevel s |}).

Definition set_m_bTruncateLongLog (b : bool) : M unit :=
  update (fun s =>
    {| m_bToFile := m_bToFile s; m_bTruncateLongLog := b;
       m_iLogFile := m_iLogFile s; m_nLogLevel := m_nLogLevel s |}).

Definition set_m_iLogFile (fd : Z) : M unit :=
  update (fun s =>
    {| m_bToFile := m_bToFile s; m_bTruncateLongLog := m_bTruncateLongLog s;
       m_iLogFile := fd; m_nLogLevel := m_nLogLevel s |}).

(** [m_nLogLevel] is assigned directly by the application. *)
Definition set_m_nLogLevel (l : SWLOG_LEVEL) : M unit :=
  update (fun s =>
    {| m_bToFile := m_bToFile s; m_bTruncateLongLog := m_bTruncateLongLog s;
       m_iLogFile := m_iLogFile s; m_nLogLevel := l |}).

(** A system call that only inspects the operating system. *)
Definition sys_query {A : Type} (e : event) (f : OS -> A) : M A :=
  fun w => (f (os w),
            {| logger := logger w; os := os w; trace := trace w ++ [e] |}%list).

(** A system call that may change it; the event may record the result. *)
Definition sys_call {A : Type} (e : A -> event) (f : OS -> A * OS) : M A :=
  fun w => let (r, o) := f (os w) in
           (r, {| logger := logger w; os := o; trace := trace w ++ [e r] |}%list).

Definition getcwd : M string := sys_query EvGetcwd os_cwd.
Definition access (path : string) : M Z :=
  sys_query (EvAccess path) (Sys.access path).
Definition mkdir (path : string) : M Z :=
  sys_call (fun _ => EvMkdir path) (Sys.mkdir path).
Definition open (path : string) : M Z :=
  sys_call (EvOpen path) (Sys.open path).
Definition close (fd : Z) : M Z :=
  sys_call (fun _ => EvClose fd) (Sys.close fd).
Definition lseek (fd : Z) : M Z := sys_query (EvLseek fd) (Sys.lseek fd).
Definition write (fd : Z) (data : string) : M Z :=
  sys_call (fun _ => EvWrite fd data) (Sys.write fd data).
Definition fsync (fd : Z) : M Z := sys_query (EvFsync fd) (Sys.fsync fd).
Definition printf (data : string) : M unit :=
  sys_call (fun _ => EvPrintf data)
    (fun o => (tt, Sys.set_stdout (os_stdout o ++ data) o)).
Definition gettimeofday : M timeval := sys_query EvGettimeofday os_now.
Definition pthread_self : M Z := sys_query EvPthreadSelf os_tid.

(** [localtime_r] is a library function of the second count. *)
Definition localtime_r (sec : Z) : M tm :=
  fun w => (os_localtime (os w) sec, w).

(** ** The logger (lines 41-258 of the source) *)

(** A C string argument: [None] is [nullptr]. *)
Definition is_nullptr (p : option string) : bool :=
  match p with None => true | Some _ => false end.

(** The characters a non-null C string points to. *)
Definition c_str (p : option string) : string :=
  match p with Some s => s | None => "" end.

(** [SWLog::Init] *)
Definition Init (bToFile bTruncateLongLog : bool)
    (c_cLogFileName : option string) : M bool :=
  set_m_bToFile bToFile >>
  set_m_bTruncateLongLog bTruncateLongLog >>
  if Bool.eqb bToFile true && is_nullptr c_cLogFileName then ret false
  else if Bool.eqb bToFile false then ret true
  else
    let* fileDirectory := getcwd in
    let logFileDirectory :=
      format_string "%s%s" [ArgStr fileDirectory; ArgStr "/Log/"] in
    let* r := access logFileDirectory in
    (if r =? -1 then mkdir logFileDirectory >> ret tt else ret tt) >>
    let logFileName :=
      format_string "%s%s"
        [ArgStr logFileDirectory; ArgStr (c_str c_cLogFileName)] in
    let* fd := open logFileName in
    set_m_iLogFile fd >>
    if fd =? -1 then ret false else ret true.

(** [SWLog::UnInit] *)
Definition UnInit : M unit :=
  let* fd := read m_iLogFile in
  if negb (fd =? -1) then
    close fd >>
    set_m_iLogFile (-1)
  else ret tt.

(** [SWLog::GetLogTime] *)
Definition GetLogTime : M string :=
  let* tv := gettimeofday in
  let millis := Z.quot (tv_usec tv) 1000 in
  let* nowTime := localtime_r (tv_sec tv) in
  let buffer := strftime 80 "%Y-%m-%d %H:%M:%S" nowTime in
  let strTime := format_string "[%s %04d]" [ArgStr buffer; ArgInt millis] in
  ret strTime.

(** The tag chosen by lines 180-192. *)
Definition level_tag (nLevel : Z) : string :=
  if nLevel =? level_value LOG_INFO then "[INFO]"
  else if nLevel =? level_value LOG_WARNING then "[WARNING]"
  else if nLevel =? level_value LOG_ERROR then "[ERROR]"
  else "".

(** [SWLog::Log]; the variadic arguments are the list [args]. *)
Definition Log (nLevel : Z) (pszFileName pszFunctionSig : string)
    (nLineNo : Z) (pszFmt : string) (args : list fmt_arg) : M bool :=
  let* threshold := read m_nLogLevel in
  if nLevel <=? level_value threshold then ret false
  else
    let strLogLevel := level_tag nLevel in
    let* strTime := GetLogTime in
    let strLogInfo :=
      format_string "%s %s" [ArgStr strTime; ArgStr strLogLevel] in
    let* dwThreadID := pthread_self in
    let strLogInfo :=
      format_string "%s [ThreadID: %u] [%s Line: %u] [Function: %s] Message: "
        [ArgStr strLogInfo; ArgInt dwThreadID; ArgStr pszFileName;
         ArgInt nLineNo; ArgStr pszFunctionSig] in
    let strLogMsg := format_string pszFmt args in
    let* bTruncate := read m_bTruncateLongLog in
    let strLogMsg :=
      if bTruncate then substr 0 MAX_LINE_LENGTH strLogMsg else strLogMsg in
    let strLogInfo := strLogInfo ++ strLogMsg in
    let strLogInfo := strLogInfo ++ CRLF in
    let* bToFile := read m_bToFile in
    if bToFile then
      let* fd := read m_iLogFile in
      if fd =? -1 then ret false
      else
        lseek fd >>
        write fd strLogInfo >>
        fsync fd >>
        ret true
    else
      printf strLogInfo >>
      ret true.

(** ** Running operations *)

(** The events an operation adds to the trace of [w]. *)
Definition events_of {A : Type} (m : M A) (w : World) : list event :=
  drop (List.length (trace w)) (trace (snd (m w))).

Definition is_output (e : event) : bool :=
  match e with
  | EvWrite _ _ | EvPrintf _ => true
  | _ => false
  end.

(** The text an operation hands to [write] or [printf]. *)
Definition output_of (evs : list event) : list string :=
  flat_map (fun e => match e with
                     | EvWrite _ d | EvPrintf d => [d]
                     | _ => []
                     end) evs.

(** A process that has just started, in a directory [/home/u]. *)
Definition sample_tm : tm :=
  {| tm_sec := 7; tm_min := 5; tm_hour := 9;
     tm_mday := 11; tm_mon := 0; tm_year := 122 |}.

Definition sample_os : OS :=
  {| os_cwd := "/home/u";
     os_dirs := {["/"; "/home/"; "/home/u/"]};
     os_files := ∅; os_fds := ∅; os_fd_limit := 16;
     os_stdout := "";
     os_now := {| tv_sec := 1641891907; tv_usec := 83456 |};
     os_localtime := fun _ => sample_tm;
     os_tid := 4242 |}.

Definition sample_world : World :=
  {| logger := initial_logger; os := sample_os; trace := [] |}.

(** ** What a log call produces *)

(** The time stamp [GetLogTime] builds from the clock of [o]. *)
Definition timestamp_of (o : OS) : string :=
  format_string "[%s %04d]"
    [ArgStr (strftime 80 "%Y-%m-%d %H:%M:%S"
               (os_localtime o (tv_sec (os_now o))));
     ArgInt (Z.quot (tv_usec (os_now o)) 1000)].

(** The header layout of a log line, field by field. *)
Definition log_header (stamp : string) (nLevel tid : Z) (file : string)
    (line : Z) (func : string) : string :=
  stamp ++ " " ++ level_tag nLevel
  ++ " [ThreadID: " ++ Text.udec (Text.wrap_u32 tid)
  ++ "] [" ++ file ++ " Line: " ++ Text.udec (Text.wrap_u32 line)
  ++ "] [Function: " ++ func ++ "] Message: ".

(** The complete line: header, body (clipped when [trunc]), terminator. *)
Definition log_line (o : OS) (trunc : bool) (nLevel : Z) (file func : string)
    (line : Z) (fmt : string) (args : list fmt_arg) : string :=
  log_header (timestamp_of o) nLevel (os_tid o) file line func
  ++ (if trunc then substr 0 MAX_LINE_LENGTH (format_string fmt args)
      else format_string fmt args)
  ++ CRLF.

Definition emits (evs : list event) : bool := existsb is_output evs.

(** The sink of the logger state can take a line: the console, or a
    file with a stored handle. *)
Definition sink_usable (s : LoggerState) : bool :=
  negb (m_bToFile s) || negb (m_iLogFile s =? -1).

(** The ranges POSIX gives for a clock reading and its broken-down local
    time, with a four-digit year. *)
Definition clock_wf (o : OS) : Prop :=
  let t := os_localtime o (tv_sec (os_now o)) in
  0 <= tv_usec (os_now o) < 1000000
  /\ 1000 <= tm_year t + 1900 <= 9999
  /\ 0 <= tm_mon t <= 11
  /\ 1 <= tm_mday t <= 31
  /\ 0 <= tm_hour t <= 23
  /\ 0 <= tm_min t <= 59
  /\ 0 <= tm_sec t <= 60.

(** The logger state after [Init] assigned its flags and the handle
    [fd]; the threshold is not an argument of [Init]. *)
Definition configured (s : LoggerState) (bToFile bTruncate : bool) (fd : Z)
    : LoggerState :=
  {| m_bToFile := bToFile; m_bTruncateLongLog := bTruncate;
     m_iLogFile := fd; m_nLogLevel := m_nLogLevel s |}.

Definition is_printf (e : event) : bool :=
  match e with EvPrintf _ => true | _ => false end.

Definition is_close (e : event) : bool :=
  match e with EvClose _ => true | _ => false end.

(** A recorded call of [Log], and a run of such calls in order. *)
Record log_call : Type := {
  lc_level : Z;
  lc_file : string;
  lc_func : string;
  lc_line : Z;
  lc_fmt : string;
  lc_args : list fmt_arg
}.

Definition do_log (c : log_call) : M bool :=
  Log (lc_level c) (lc_file c) (lc_func c) (lc_line c) (lc_fmt c) (lc_args c).

Fixpoint run_logs (cs : list log_call) : M (list bool) :=
  match cs with
  | [] => ret []
  | c :: rest =>
      let* b := do_log c in
      let* bs := run_logs rest in
      ret (b :: bs)
  end.

(** Worlds reached through the interface from [sample_world]. *)
Definition file_world : World :=
  snd (Init true true (Some "app.log") sample_world).

Definition closed_file_world : World := snd (UnInit file_world).

Definition console_world : World :=
  snd (Init false true None sample_world).

(** A console logger that still stores the handle of an earlier file
    initialisation. *)
Definition console_after_file_world : World :=
  snd (Init false true None file_world).

(** A logger initialised for the same file twice. *)
Definition twice_file_world : World :=
  snd (Init true true (Some "app.log") file_world).

Definition sample_call : log_call :=
  {| lc_level := level_value LOG_INFO; lc_file := "main.cpp";
     lc_func := "main"; lc_line := 42;
     lc_fmt := "started %s"; lc_args := [ArgStr "ok"] |}.

(** A world with added trace events. *)
Definition with_events (w : World) (o : OS) (evs : list event) : World :=
  {| logger := logger w; os := o; trace := (trace w ++ evs)%list |}.

(** ** Vocabulary for runs of calls *)

(** The content of the file at [path]; a missing file has none. *)
Definition content (o : OS) (path : string) : string :=
  match os_files o !! path with Some c => c | None => "" end.

(** A call passes the level filter of the logger state [s]. *)
Definition passes (s : LoggerState) (c : log_call) : bool :=
  negb (lc_level c <=? level_value (m_nLogLevel s)).

(** The line a call produces under the clock of [o] and the flags of
    [s]. *)
Definition call_line (o : OS) (s : LoggerState) (c : log_call) : string :=
  log_line o (m_bTruncateLongLog s) (lc_level c) (lc_file c) (lc_func c)
    (lc_line c) (lc_fmt c) (lc_args c).

(** The lines of the calls that pass the filter, in call order. *)
Fixpoint lines_of (o : OS) (s : LoggerState) (cs : list log_call) : string :=
  match cs with
  | [] => ""
  | c :: rest =>
      (if passes s c then call_line o s c else "") ++ lines_of o s rest
  end.

(** The path [Init] opens for a file name. *)
Definition log_path (o : OS) (name : string) : string :=
  (os_cwd o ++ "/Log/") ++ name.

(** Two states of the operating system that differ at most in the
    contents of files. *)
Definition same_but_files (o o' : OS) : Prop :=
  os_cwd o' = os_cwd o /\ os_dirs o' = os_dirs o /\ os_fds o' = os_fds o
  /\ os_fd_limit o' = os_fd_limit o /\ os_stdout o' = os_stdout o
  /\ os_now o' = os_now o /\ os_localtime o' = os_localtime o
  /\ os_tid o' = os_tid o.

(** What [o'] keeps of [o] when only directories, files and descriptors
    may have been added: the working directory, standard output, the
    clock, every directory and the content of every file. *)
Definition os_extends (o o' : OS) : Prop :=
  os_cwd o' = os_cwd o /\ os_stdout o' = os_stdout o
  /\ os_fd_limit o' = os_fd_limit o
  /\ os_now o' = os_now o /\ os_localtime o' = os_localtime o
  /\ os_tid o' = os_tid o
  /\ os_dirs o ⊆ os_dirs o'
  /\ (forall p c, os_files o !! p = Some c -> os_files o' !! p = Some c)
  /\ (forall p, content o' p = content o p).

Definition is_resource_event (e : event) : bool :=
  match e with
  | EvOpen _ _ | EvClose _ | EvMkdir _ => true
  | _ => false
  end.

(** A logger whose stored handle is not an open descriptor. *)
Definition stale_handle_world : World :=
  {| logger := {| m_bToFile := true; m_bTruncateLongLog := false;
                  m_iLogFile := 9; m_nLogLevel := LOG_NONE |};
     os := sample_os; trace := [] |}.

(** ** The [_WIN64] build of [GetLogTime] *)

(** The fields of the Win32 [SYSTEMTIME] the source prints. *)
Record SYSTEMTIME : Type := {
  wYear : Z; wMonth : Z; wDay : Z;
  wHour : Z; wMinute : Z; wSecond : Z; wMilliseconds : Z
}.

(** Lines 135-145: the text built from the [SYSTEMTIME] that
    [GetLocalTime] filled in. *)
Definition GetLogTime_win64 (st : SYSTEMTIME) : string :=
  format_string "[%04d-%02d-%02d %02d:%02d:%02d %04d]"
    [ArgInt (wYear st); ArgInt (wMonth st); ArgInt (wDay st);
     ArgInt (wHour st); ArgInt (wMinute st); ArgInt (wSecond st);
     ArgInt (wMilliseconds st)].

(** The [SYSTEMTIME] of the local time a POSIX clock reading stands
    for. *)
Definition systemtime_of (o : OS) : SYSTEMTIME :=
  let t := os_localtime o (tv_sec (os_now o)) in
  {| wYear := tm_year t + 1900; wMonth := tm_mon t + 1; wDay := tm_mday t;
     wHour := tm_hour t; wMinute := tm_min t; wSecond := tm_sec t;
     wMilliseconds := tv_usec (os_now o) / 1000 |}.

(** The ranges of the [SYSTEMTIME] fields, with a year of at most four
    digits. *)
Definition systemtime_wf (st : SYSTEMTIME) : Prop :=
  0 <= wYear st <= 9999 /\ 1 <= wMonth st <= 12 /\ 1 <= wDay st <= 31
  /\ 0 <= wHour st <= 23 /\ 0 <= wMinute st <= 59 /\ 0 <= wSecond st <= 59
  /\ 0 <= wMilliseconds st <= 999.

Arguments format_string : simpl never.
Arguments strftime : simpl never.
Arguments substr : simpl never.
Arguments Text.udec : simpl never.
Arguments Text.sdec : simpl never.
Arguments Text.pad_left : simpl never.
Arguments Text.wrap_u32 : simpl never.
Arguments Text.wrap_i32 : simpl never.
Arguments level_tag : simpl never.

(** * Properties *)

Example format_string_time :
  format_string "[%s %04d]" [ArgStr "2022-01-11 09:05:00"; ArgInt 83]
  = "[2022-01-11 09:05:00 0083]".
Proof. reflexivity. Qed.

Example format_string_header :
  format_string "%s [ThreadID: %u] [%s Line: %u] [Function: %s] Message: "
    [ArgStr "T [INFO]"; ArgInt 7; ArgStr "main.cpp"; ArgInt 42; ArgStr "main"]
  = "T [INFO] [ThreadID: 7] [main.cpp Line: 42] [Function: main] Message: ".
Proof. reflexivity. Qed.

(** ** Strings *)

Lemma append_cons (c : ascii) (a b : string) :
  String c a ++ b = String c (a ++ b).
Proof. reflexivity. Qed.

Lemma append_nil_r (s : string) : s ++ "" = s.
Proof.
  induction s as [|c s IH]; [reflexivity |].
  now rewrite append_cons, IH.
Qed.

Lemma append_assoc (a b c : string) : (a ++ b) ++ c = a ++ (b ++ c).
Proof.
  induction a as [|x a IH]; [reflexivity |].
  now rewrite !append_cons, IH.
Qed.

Lemma length_append (a b : string) :
  String.length (a ++ b) = (String.length a + String.length b)%nat.
Proof.
  induction a as [|x a IH]; [reflexivity |].
  rewrite append_cons. simpl. now rewrite IH.
Qed.

Lemma substr_length (n : nat) (s : string) :
  String.length (substr 0 n s) = Nat.min n (String.length s).
Proof.
  unfold substr. revert s.
  induction n as [|n IH]; intros [|c s]; simpl; try reflexivity.
  now rewrite IH.
Qed.

Lemma substr_short (n : nat) (s : string) :
  (String.length s <= n)%nat -> substr 0 n s = s.
Proof.
  unfold substr. revert s.
  induction n as [|n IH]; intros [|c s] Hlen; simpl in *;
    try reflexivity; [lia |].
  rewrite IH; [reflexivity | lia].
Qed.

(** [substr 0 n] keeps a prefix: the string is the clipped part followed
    by a remainder. *)
Lemma substr_prefix (n : nat) (s : string) :
  exists rest, s = substr 0 n s ++ rest.
Proof.
  unfold substr. revert s.
  induction n as [|n IH]; intros [|c s]; simpl.
  - now exists "".
  - now exists (String c s).
  - now exists "".
  - destruct (IH s) as [rest Hrest]. exists rest.
    now rewrite append_cons, <- Hrest.
Qed.

(** ** Decimal rendering *)

Module TextFacts.
Import Text.

Lemma fill_snoc (c : ascii) (k : nat) :
  fill c k ++ String c "" = String c (fill c k).
Proof.
  induction k as [|k IH]; [reflexivity |].
  simpl fill. now rewrite append_cons, IH.
Qed.

Lemma pad_left_0 (c : ascii) (s : string) : pad_left c 0 s = s.
Proof. reflexivity. Qed.

Lemma fixed_dec_length (w : nat) (n : Z) : String.length (fixed_dec w n) = w.
Proof.
  revert n. induction w as [|w IH]; intros n; simpl; [reflexivity |].
  rewrite length_append, IH. simpl. lia.
Qed.

Lemma fixed_dec_zero (w : nat) : fixed_dec w 0 = fill "0" w.
Proof.
  induction w as [|w IH]; simpl; [reflexivity |].
  change (0 / 10) with 0. rewrite IH. apply fill_snoc.
Qed.

(** Digits above the magnitude of [n] are zeros. *)
Lemma fixed_dec_small (m a : nat) (n : Z) :
  0 <= n < 10 ^ Z.of_nat m ->
  fixed_dec (a + m) n = fill "0" a ++ fixed_dec m n.
Proof.
  revert n. induction m as [|m IH]; intros n Hn.
  - change (10 ^ Z.of_nat 0) with 1 in Hn.
    assert (n = 0) as -> by lia.
    rewrite Nat.add_0_r, fixed_dec_zero. simpl. now rewrite append_nil_r.
  - rewrite Nat.add_succ_r. simpl.
    rewrite Nat2Z.inj_succ, Z.pow_succ_r in Hn by lia.
    rewrite IH.
    + now rewrite append_assoc.
    + split; [apply Z.div_pos; lia | apply Z.div_lt_upper_bound; lia].
Qed.

(** With enough fuel the digit loop prints exactly the significant
    digits of [n]. *)
Lemma udec_aux_digits (fuel : nat) :
  forall (n : Z) (acc : string),
    (0 < fuel)%nat -> 0 <= n < 2 ^ Z.of_nat fuel ->
    exists j : nat,
      udec_aux fuel n acc = fixed_dec (S j) n ++ acc
      /\ n < 10 ^ Z.of_nat (S j)
      /\ (n < 10 -> j = O)
      /\ (10 <= n -> 10 ^ Z.of_nat j <= n).
Proof.
  induction fuel as [|f IH]; intros n acc Hf Hn; [lia |].
  simpl udec_aux.
  destruct (Z.eqb_spec (n / 10) 0) as [Hq | Hq].
  - assert (n < 10) as Hlt.
    { destruct (Z_lt_ge_dec n 10) as [H | H]; [exact H |].
      assert (1 <= n / 10) by (apply Z.div_le_lower_bound; lia). lia. }
    exists O. split; [reflexivity |].
    change (10 ^ Z.of_nat 1) with 10. repeat split; lia.
  - assert (10 <= n) as Hge.
    { destruct (Z_lt_ge_dec n 10) as [H | H]; [| lia].
      exfalso. apply Hq. apply Z.div_small. lia. }
    assert (1 <= n / 10) as Hq1 by (apply Z.div_le_lower_bound; lia).
    rewrite Nat2Z.inj_succ, Z.pow_succ_r in Hn by lia.
    assert (n / 10 < 2 ^ Z.of_nat f) as Hq2
      by (apply Z.div_lt_upper_bound; lia).
    assert (0 < f)%nat as Hf'.
    { destruct f; [| lia]. change (2 ^ Z.of_nat 0) with 1 in Hq2. lia. }
    destruct (IH (n / 10) (String (digit_char (n mod 10)) acc) Hf')
      as (j & Heq & Hlt & Hsmall & Hbig); [lia |].
    exists (S j). rewrite Heq. split; [| split; [| split]].
    + change (fixed_dec (S (S j)) n)
        with (fixed_dec (S j) (n / 10) ++ String (digit_char (n mod 10)) "").
      now rewrite append_assoc.
    + rewrite (Nat2Z.inj_succ (S j)), Z.pow_succ_r by lia.
      pose proof (Z.div_mod n 10 ltac:(lia)).
      pose proof (Z.mod_pos_bound n 10 ltac:(lia)). lia.
    + lia.
    + intros _. rewrite Nat2Z.inj_succ, Z.pow_succ_r by lia.
      destruct (Z_lt_ge_dec (n / 10) 10) as [H | H].
      * rewrite (Hsmall H). change (10 ^ Z.of_nat 0) with 1. lia.
      * specialize (Hbig ltac:(lia)).
        pose proof (Z.div_mod n 10 ltac:(lia)).
        pose proof (Z.mod_pos_bound n 10 ltac:(lia)). lia.
Qed.

Lemma udec_digits (n : Z) :
  0 <= n ->
  exists j : nat,
    udec n = fixed_dec (S j) n
    /\ n < 10 ^ Z.of_nat (S j)
    /\ (n < 10 -> j = O)
    /\ (10 <= n -> 10 ^ Z.of_nat j <= n).
Proof.
  intros Hn. unfold udec.
  destruct (udec_aux_digits (S (Z.to_nat (Z.log2 n))) n "") as (j & H & Hr).
  - lia.
  - split; [exact Hn |].
    rewrite Nat2Z.inj_succ, Z2Nat.id by apply Z.log2_nonneg.
    destruct (Z.eq_dec n 0) as [-> | Hnz]; [reflexivity |].
    apply Z.log2_spec. lia.
  - exists j. rewrite H, append_nil_r. auto.
Qed.

(** A number below [10 ^ w], zero-padded to width [w], is its [w]
    decimal digits. *)
Lemma pad_udec (w : nat) (n : Z) :
  (0 < w)%nat -> 0 <= n < 10 ^ Z.of_nat w ->
  pad_left "0" w (udec n) = fixed_dec w n.
Proof.
  intros Hw [Hn0 Hn].
  destruct (udec_digits n Hn0) as (j & Heq & Hlt & Hsmall & Hbig).
  assert (S j <= w)%nat as Hj.
  { destruct (Z_lt_ge_dec n 10) as [H | H].
    - rewrite (Hsmall H). lia.
    - specialize (Hbig ltac:(lia)).
      assert (10 ^ Z.of_nat j < 10 ^ Z.of_nat w) as Hp by lia.
      apply Z.pow_lt_mono_r_iff in Hp; lia. }
  unfold pad_left. rewrite Heq, fixed_dec_length.
  replace w with ((w - S j) + S j)%nat at 2 by lia.
  rewrite fixed_dec_small; [reflexivity | lia].
Qed.

(** A number with exactly [w] significant digits needs no padding. *)
Lemma udec_exact (w : nat) (n : Z) :
  10 <= n -> 10 ^ Z.of_nat w <= n < 10 ^ Z.of_nat (S w) ->
  udec n = fixed_dec (S w) n.
Proof.
  intros H10 [Hlo Hhi].
  destruct (udec_digits n ltac:(lia)) as (j & Heq & Hlt & _ & Hbig).
  specialize (Hbig H10).
  assert (j = w) as <-; [| exact Heq].
  assert (10 ^ Z.of_nat j < 10 ^ Z.of_nat (S w)) as H1 by lia.
  assert (10 ^ Z.of_nat w < 10 ^ Z.of_nat (S j)) as H2 by lia.
  apply Z.pow_lt_mono_r_iff in H1; [| lia | lia].
  apply Z.pow_lt_mono_r_iff in H2; [| lia | lia].
  lia.
Qed.

Lemma sdec_zero_nonneg (w : nat) (n : Z) :
  (0 < w)%nat -> 0 <= n < 10 ^ Z.of_nat w ->
  sdec true w n = fixed_dec w n.
Proof.
  intros Hw Hn. unfold sdec.
  destruct (Z.ltb_spec n 0) as [H | _]; [lia |].
  now apply pad_udec.
Qed.

Lemma wrap_i32_small (n : Z) :
  - 2 ^ 31 <= n < 2 ^ 31 -> wrap_i32 n = n.
Proof.
  intros Hn. unfold wrap_i32.
  rewrite Z.mod_small; lia.
Qed.

End TextFacts.

(** ** Running the operations *)

Lemma events_of_with_events {A : Type} (m : M A) (w : World) (a : A)
    (o : OS) (evs : list event) :
  m w = (a, with_events w o evs) -> events_of m w = evs.
Proof.
  intros H. unfold events_of. rewrite H. simpl.
  apply drop_app_length.
Qed.

Lemma with_events_nil (w : World) : with_events w (os w) [] = w.
Proof. destruct w. unfold with_events. simpl. now rewrite app_nil_r. Qed.

Lemma format_header (stamp : string) (nLevel tid : Z) (file : string)
    (line : Z) (func : string) :
  format_string "%s [ThreadID: %u] [%s Line: %u] [Function: %s] Message: "
    [ArgStr (format_string "%s %s" [ArgStr stamp; ArgStr (level_tag nLevel)]);
     ArgInt tid; ArgStr file; ArgInt line; ArgStr func]
  = log_header stamp nLevel tid file line func.
Proof.
  unfold format_string, log_header. simpl.
  rewrite !TextFacts.pad_left_0, !append_nil_r, !append_assoc.
  reflexivity.
Qed.

Lemma GetLogTime_run (w : World) :
  GetLogTime w = (timestamp_of (os w), with_events w (os w) [EvGettimeofday]).
Proof. reflexivity. Qed.

Lemma with_events_os (w : World) (o : OS) (evs : list event) :
  os (with_events w o evs) = o.
Proof. reflexivity. Qed.

Lemma with_events_again (w : World) (o o' : OS) (e1 e2 : list event) :
  with_events (with_events w o e1) o' e2 = with_events w o' (e1 ++ e2)%list.
Proof. unfold with_events. simpl. now rewrite app_assoc. Qed.

(** The four outcomes of a call of [Log]: filtered, file destination
    without a handle, file destination, console. *)
Lemma Log_run (w : World) (nLevel : Z) (file func : string) (line : Z)
    (fmt : string) (args : list fmt_arg) :
  let s := logger w in
  let text := log_line (os w) (m_bTruncateLongLog s) nLevel file func
                line fmt args in
  Log nLevel file func line fmt args w =
    if nLevel <=? level_value (m_nLogLevel s) then (false, w)
    else if m_bToFile s then
      if m_iLogFile s =? -1 then
        (false, with_events w (os w) [EvGettimeofday; EvPthreadSelf])
      else
        (true,
         with_events w (snd (Sys.write (m_iLogFile s) text (os w)))
           [EvGettimeofday; EvPthreadSelf; EvLseek (m_iLogFile s);
            EvWrite (m_iLogFile s) text; EvFsync (m_iLogFile s)])
    else
      (true,
       with_events w (Sys.set_stdout (os_stdout (os w) ++ text) (os w))
         [EvGettimeofday; EvPthreadSelf; EvPrintf text]).
Proof.
  intros s text. subst s text.
  destruct w as [s o tr]. unfold Log, bind, read. simpl.
  destruct (nLevel <=? level_value (m_nLogLevel s)); [reflexivity |].
  unfold log_line, with_events. simpl.
  rewrite format_header, append_assoc.
  destruct (m_bToFile s); simpl.
  - destruct (m_iLogFile s =? -1); simpl.
    + now rewrite <- app_assoc.
    + unfold write, sys_call. simpl.
      destruct (Sys.write _ _ o) as [r o']. simpl.
      now rewrite <- !app_assoc.
  - now rewrite <- !app_assoc.
Qed.

Lemma Log_preserves_logger (w : World) (nLevel : Z) (file func : string)
    (line : Z) (fmt : string) (args : list fmt_arg) :
  logger (snd (Log nLevel file func line fmt args w)) = logger w.
Proof.
  rewrite Log_run.
  destruct (nLevel <=? _); [reflexivity |].
  destruct (m_bToFile _); [destruct (m_iLogFile _ =? -1) |]; reflexivity.
Qed.

(** Without a stored handle a file-bound call fails and leaves the
    operating system alone; at most the clock and the thread id were
    read. *)
Lemma Log_closed_file (w : World) (c : log_call) :
  m_bToFile (logger w) = true -> m_iLogFile (logger w) = -1 ->
  exists evs,
    do_log c w = (false, with_events w (os w) evs) /\ emits evs = false.
Proof.
  intros Hf Hh. unfold do_log. rewrite Log_run. simpl.
  rewrite Hf, Hh. simpl.
  destruct (lc_level c <=? _).
  - exists []. now rewrite with_events_nil.
  - now exists [EvGettimeofday; EvPthreadSelf].
Qed.

Lemma emits_app (e1 e2 : list event) :
  emits (e1 ++ e2) = emits e1 || emits e2.
Proof. unfold emits. apply existsb_app. Qed.

Lemma run_logs_closed_file (cs : list log_call) :
  forall w : World,
    m_bToFile (logger w) = true -> m_iLogFile (logger w) = -1 ->
    exists evs,
      run_logs cs w = (map (fun _ => false) cs, with_events w (os w) evs)
      /\ emits evs = false.
Proof.
  induction cs as [|c cs IH]; intros w Hf Hh.
  - exists []. now rewrite with_events_nil.
  - destruct (Log_closed_file w c Hf Hh) as (e1 & Hrun & He1).
    destruct (IH (with_events w (os w) e1) Hf Hh) as (e2 & Hrest & He2).
    exists (e1 ++ e2)%list. split.
    + simpl. unfold bind. rewrite Hrun, Hrest.
      now rewrite with_events_os, with_events_again.
    + now rewrite emits_app, He1, He2.
Qed.

(** [UnInit] in one equation. *)
Lemma UnInit_run (w : World) :
  UnInit w =
    if m_iLogFile (logger w) =? -1 then (tt, w)
    else
      (tt,
       {| logger := {| m_bToFile := m_bToFile (logger w);
                       m_bTruncateLongLog := m_bTruncateLongLog (logger w);
                       m_iLogFile := -1;
                       m_nLogLevel := m_nLogLevel (logger w) |};
          os := snd (Sys.close (m_iLogFile (logger w)) (os w));
          trace := (trace w ++ [EvClose (m_iLogFile (logger w))])%list |}).
Proof.
  destruct w as [s o tr]. unfold UnInit, bind, read. simpl.
  destruct (m_iLogFile s =? -1); simpl; [reflexivity |].
  unfold close, sys_call. simpl.
  now destruct (Sys.close _ o).
Qed.

Lemma UnInit_handle (w : World) :
  m_iLogFile (logger (snd (UnInit w))) = -1.
Proof.
  rewrite UnInit_run.
  destruct (Z.eqb_spec (m_iLogFile (logger w)) (-1)); simpl; auto.
Qed.

Lemma UnInit_flags (w : World) :
  m_bToFile (logger (snd (UnInit w))) = m_bToFile (logger w)
  /\ m_bTruncateLongLog (logger (snd (UnInit w)))
     = m_bTruncateLongLog (logger w)
  /\ m_nLogLevel (logger (snd (UnInit w))) = m_nLogLevel (logger w).
Proof.
  rewrite UnInit_run.
  destruct (m_iLogFile (logger w) =? -1); simpl; auto.
Qed.

Lemma Log_events (w : World) (nLevel : Z) (file func : string) (line : Z)
    (fmt : string) (args : list fmt_arg) :
  let s := logger w in
  let text := log_line (os w) (m_bTruncateLongLog s) nLevel file func
                line fmt args in
  events_of (Log nLevel file func line fmt args) w =
    if nLevel <=? level_value (m_nLogLevel s) then []
    else if m_bToFile s then
      if m_iLogFile s =? -1 then [EvGettimeofday; EvPthreadSelf]
      else [EvGettimeofday; EvPthreadSelf; EvLseek (m_iLogFile s);
            EvWrite (m_iLogFile s) text; EvFsync (m_iLogFile s)]
    else [EvGettimeofday; EvPthreadSelf; EvPrintf text].
Proof.
  intros s text. subst s text.
  pose proof (Log_run w nLevel file func line fmt args) as Hrun.
  simpl in Hrun.
  destruct (nLevel <=? _).
  - rewrite <- (with_events_nil w) in Hrun at 2.
    exact (events_of_with_events _ _ _ _ _ Hrun).
  - destruct (m_bToFile _); [destruct (m_iLogFile _ =? -1) |];
      exact (events_of_with_events _ _ _ _ _ Hrun).
Qed.

(** ** The time stamp *)

Lemma sdec_year (y : Z) :
  1000 <= y <= 9999 -> Text.sdec false 0 y = Text.fixed_dec 4 y.
Proof.
  intros Hy. unfold Text.sdec.
  destruct (Z.ltb_spec y 0) as [H | _]; [lia |].
  rewrite TextFacts.pad_left_0.
  apply (TextFacts.udec_exact 3); [lia |].
  change (10 ^ Z.of_nat 3) with 1000.
  change (10 ^ Z.of_nat 4) with 10000. lia.
Qed.

Lemma sdec_two_digits (n : Z) :
  0 <= n <= 99 -> Text.sdec true 2 n = Text.fixed_dec 2 n.
Proof.
  intros Hn. apply TextFacts.sdec_zero_nonneg; [lia |].
  change (10 ^ Z.of_nat 2) with 100. lia.
Qed.

Lemma strftime_layout (t : tm) :
  1000 <= tm_year t + 1900 <= 9999 -> 0 <= tm_mon t <= 11 ->
  1 <= tm_mday t <= 31 -> 0 <= tm_hour t <= 23 ->
  0 <= tm_min t <= 59 -> 0 <= tm_sec t <= 60 ->
  strftime 80 "%Y-%m-%d %H:%M:%S" t
  = Text.fixed_dec 4 (tm_year t + 1900) ++ "-"
    ++ Text.fixed_dec 2 (tm_mon t + 1) ++ "-"
    ++ Text.fixed_dec 2 (tm_mday t) ++ " "
    ++ Text.fixed_dec 2 (tm_hour t) ++ ":"
    ++ Text.fixed_dec 2 (tm_min t) ++ ":"
    ++ Text.fixed_dec 2 (tm_sec t).
Proof.
  intros Hy Hmo Hd Hh Hmi Hs.
  unfold strftime. simpl strftime_go.
  rewrite (sdec_year _ Hy), !sdec_two_digits by lia.
  rewrite append_nil_r.
  repeat (rewrite length_append, ?TextFacts.fixed_dec_length;
          simpl String.length).
  rewrite ?TextFacts.fixed_dec_length.
  reflexivity.
Qed.

Lemma format_timestamp (buffer : string) (millis : Z) :
  format_string "[%s %04d]" [ArgStr buffer; ArgInt millis]
  = "[" ++ buffer ++ " " ++ Text.sdec true 4 (Text.wrap_i32 millis) ++ "]".
Proof.
  unfold format_string. simpl.
  now rewrite TextFacts.pad_left_0.
Qed.

(** C8: for a clock reading within the POSIX ranges and a four-digit
    year, [GetLogTime] returns the local time as
    [[YYYY-MM-DD HH:MM:SS mmmm]]: 26 characters, every field of fixed
    width, the last one the millisecond count (0 to 999) as four
    decimal digits, hence with a leading zero.  The call changes
    neither the logger nor the operating system; its only event is the
    clock reading. *)
Theorem GetLogTime_layout (w : World) :
  clock_wf (os w) ->
  let t := os_localtime (os w) (tv_sec (os_now (os w))) in
  let ms := tv_usec (os_now (os w)) / 1000 in
  0 <= ms <= 999
  /\ fst (GetLogTime w)
     = "[" ++ Text.fixed_dec 4 (tm_year t + 1900) ++ "-"
       ++ Text.fixed_dec 2 (tm_mon t + 1) ++ "-"
       ++ Text.fixed_dec 2 (tm_mday t) ++ " "
       ++ Text.fixed_dec 2 (tm_hour t) ++ ":"
       ++ Text.fixed_dec 2 (tm_min t) ++ ":"
       ++ Text.fixed_dec 2 (tm_sec t) ++ " "
       ++ Text.fixed_dec 4 ms ++ "]"
  /\ Text.fixed_dec 4 ms = "0" ++ Text.fixed_dec 3 ms
  /\ String.length (fst (GetLogTime w)) = 26%nat
  /\ logger (snd (GetLogTime w)) = logger w
  /\ os (snd (GetLogTime w)) = os w
  /\ events_of GetLogTime w = [EvGettimeofday].
Proof.
  intros (Hus & Hy & Hmo & Hd & Hh & Hmi & Hs) t ms.
  assert (0 <= ms <= 999) as Hms.
  { subst ms. split; [apply Z.div_pos; lia |].
    assert (tv_usec (os_now (os w)) / 1000 < 1000)
      by (apply Z.div_lt_upper_bound; lia). lia. }
  assert (fst (GetLogTime w)
          = "[" ++ Text.fixed_dec 4 (tm_year t + 1900) ++ "-"
            ++ Text.fixed_dec 2 (tm_mon t + 1) ++ "-"
            ++ Text.fixed_dec 2 (tm_mday t) ++ " "
            ++ Text.fixed_dec 2 (tm_hour t) ++ ":"
            ++ Text.fixed_dec 2 (tm_min t) ++ ":"
            ++ Text.fixed_dec 2 (tm_sec t) ++ " "
            ++ Text.fixed_dec 4 ms ++ "]") as Hfmt.
  { rewrite GetLogTime_run. simpl fst. unfold timestamp_of.
    fold t. rewrite (strftime_layout t Hy Hmo Hd Hh Hmi Hs).
    rewrite Z.quot_div_nonneg by lia. fold ms.
    rewrite format_timestamp.
    rewrite TextFacts.wrap_i32_small by lia.
    assert (0 <= ms < 10 ^ Z.of_nat 4) as Hms4
      by (change (10 ^ Z.of_nat 4) with 10000; lia).
    rewrite (TextFacts.sdec_zero_nonneg 4 ms ltac:(lia) Hms4).
    rewrite !append_assoc. reflexivity. }
  split; [exact Hms |]. split; [exact Hfmt |]. split.
  - change 4%nat with (1 + 3)%nat.
    apply TextFacts.fixed_dec_small.
    change (10 ^ Z.of_nat 3) with 1000. lia.
  - split.
    + rewrite Hfmt.
      repeat (rewrite length_append, ?TextFacts.fixed_dec_length;
              simpl String.length).
      reflexivity.
    + rewrite GetLogTime_run. simpl.
      split; [reflexivity |]. split; [reflexivity |].
      apply (events_of_with_events _ _ _ _ _ (GetLogTime_run w)).
Qed.

Lemma GetLogTime_layout_witness :
  clock_wf (os sample_world)
  /\ fst (GetLogTime sample_world) = "[2022-01-11 09:05:07 0083]".
Proof.
  assert (clock_wf (os sample_world)) as Hwf
    by (vm_compute; repeat split; discriminate).
  split; [exact Hwf |].
  rewrite (proj1 (proj2 (GetLogTime_layout sample_world Hwf))).
  vm_compute. reflexivity.
Defined.

(** ** The level filter *)

(** The filter on a console logger, threshold and probe ranging over
    the four levels: output exactly when the probe is above. *)
Example Log_filter_table :
  let levels := [LOG_NONE; LOG_ERROR; LOG_WARNING; LOG_INFO] in
  forallb (fun T =>
    forallb (fun L =>
      Bool.eqb
        (emits (events_of (Log (level_value L) "main.cpp" "main" 42 "probe" [])
                  (snd (set_m_nLogLevel T console_world))))
        (level_value T <? level_value L)) levels) levels = true.
Proof. vm_compute. reflexivity. Qed.

(** C1 (as stated) fails: after [UnInit] a file-bound logger emits
    nothing for a level above the threshold. *)
Lemma Log_emits_iff_above_threshold_fails :
  ~ (emits (events_of (do_log sample_call) closed_file_world) = true
     <-> lc_level sample_call
         > level_value (m_nLogLevel (logger closed_file_world))).
Proof.
  vm_compute. intros [_ H]. discriminate (H eq_refl).
Qed.

(** C1 (amended): [Log] emits output exactly when the level is
    numerically above the threshold and the sink can take a line (the
    console, or a file with a stored handle); at or below the threshold
    the call returns false at once and changes nothing: no event, so no
    clock reading, no formatting, no I/O. *)
Theorem Log_emits_iff_above_threshold_and_usable
    (w : World) (nLevel : Z) (file func : string) (line : Z)
    (fmt : string) (args : list fmt_arg) :
  (emits (events_of (Log nLevel file func line fmt args) w) = true
   <-> nLevel > level_value (m_nLogLevel (logger w))
       /\ sink_usable (logger w) = true)
  /\ (nLevel <= level_value (m_nLogLevel (logger w)) ->
      Log nLevel file func line fmt args w = (false, w)).
Proof.
  split.
  - rewrite Log_events. unfold sink_usable.
    destruct (Z.leb_spec nLevel (level_value (m_nLogLevel (logger w))))
      as [Hle | Hgt].
    + simpl. split; [discriminate | intros [H _]; lia].
    + destruct (m_bToFile (logger w)); simpl.
      * destruct (m_iLogFile (logger w) =? -1); simpl;
          (split; [intros H; split; [lia | exact H] | intros [_ H]; exact H]).
      * split; [intros _; split; [lia | reflexivity] | reflexivity].
  - intros Hle. rewrite Log_run. simpl.
    destruct (Z.leb_spec nLevel (level_value (m_nLogLevel (logger w))));
      [reflexivity | lia].
Qed.

Lemma Log_emits_iff_above_threshold_and_usable_witness :
  lc_level sample_call <= level_value (m_nLogLevel
      (logger (snd (set_m_nLogLevel LOG_INFO console_world))))
  /\ do_log sample_call (snd (set_m_nLogLevel LOG_INFO console_world))
     = (false, snd (set_m_nLogLevel LOG_INFO console_world)).
Proof.
  split; [vm_compute; discriminate |].
  apply (Log_emits_iff_above_threshold_and_usable
           (snd (set_m_nLogLevel LOG_INFO console_world))
           (lc_level sample_call) (lc_file sample_call) (lc_func sample_call)
           (lc_line sample_call) (lc_fmt sample_call) (lc_args sample_call)).
  vm_compute; discriminate.
Defined.

(** ** Frame *)

(** C9: [Log] never modifies a configuration field, whatever it
    returns. *)
Theorem Log_preserves_configuration
    (w : World) (nLevel : Z) (file func : string) (line : Z)
    (fmt : string) (args : list fmt_arg) :
  let w' := snd (Log nLevel file func line fmt args w) in
  m_bToFile (logger w') = m_bToFile (logger w)
  /\ m_bTruncateLongLog (logger w') = m_bTruncateLongLog (logger w)
  /\ m_nLogLevel (logger w') = m_nLogLevel (logger w)
  /\ m_iLogFile (logger w') = m_iLogFile (logger w).
Proof.
  intros w'. subst w'. now rewrite Log_preserves_logger.
Qed.

(** ** Logging after shutdown *)

(** C5: after [UnInit], and after any further calls of [Log], a call
    with a level above the threshold against a file destination returns
    false and performs no write: the stored handle is the invalid
    sentinel, so the call passes the filter, reads the clock and the
    thread id for the header, and stops at the handle test, leaving the
    operating system as it was. *)
Theorem Log_after_UnInit_fails
    (w : World) (earlier : list log_call) (c : log_call) :
  m_bToFile (logger w) = true ->
  lc_level c > level_value (m_nLogLevel (logger w)) ->
  let w' := snd ((UnInit >> run_logs earlier) w) in
  m_iLogFile (logger w') = -1
  /\ fst (do_log c w') = false
  /\ events_of (do_log c) w' = [EvGettimeofday; EvPthreadSelf]
  /\ emits (events_of (do_log c) w') = false
  /\ os (snd (do_log c w')) = os w'.
Proof.
  intros Hfile Hlevel w'. subst w'. unfold bind.
  destruct (UnInit w) as [[] w1] eqn:Hun.
  assert (w1 = snd (UnInit w)) as Hw1 by now rewrite Hun.
  assert (m_iLogFile (logger w1) = -1) as Hh
    by (rewrite Hw1; apply UnInit_handle).
  destruct (UnInit_flags w) as (Hf & _ & Hl). rewrite <- Hw1 in Hf, Hl.
  rewrite Hfile in Hf.
  destruct (run_logs_closed_file earlier w1 Hf Hh) as (e1 & Hrun & _).
  rewrite Hrun. simpl snd.
  unfold do_log. rewrite Log_events, Log_run. simpl.
  rewrite Hf, Hh, Hl.
  destruct (Z.leb_spec (lc_level c) (level_value (m_nLogLevel (logger w))));
    [lia |].
  simpl. auto.
Qed.

Lemma Log_after_UnInit_fails_witness :
  fst (do_log sample_call
         (snd ((UnInit >> run_logs [sample_call]) file_world))) = false.
Proof.
  refine (proj1 (proj2
    (Log_after_UnInit_fails file_world [sample_call] sample_call _ _)));
    vm_compute; reflexivity.
Defined.

(** ** Truncation *)

(** C6: with the truncation flag set, the one line a successful call
    emits is the whole header, then the first 256 characters of the
    formatted body, then the terminator.  The clipped body is a prefix
    of the body of length [min 256 (length body)]: a body of 500
    characters becomes one of exactly 256, a body of at most 256 is
    unchanged.  The header enters the line in full, whatever its
    length. *)
Theorem Log_truncates_body_only
    (w : World) (nLevel : Z) (file func : string) (line : Z)
    (fmt : string) (args : list fmt_arg) :
  m_bTruncateLongLog (logger w) = true ->
  nLevel > level_value (m_nLogLevel (logger w)) ->
  sink_usable (logger w) = true ->
  let body := format_string fmt args in
  let clipped := substr 0 256 body in
  let header :=
    log_header (timestamp_of (os w)) nLevel (os_tid (os w)) file line func in
  output_of (events_of (Log nLevel file func line fmt args) w)
    = [header ++ clipped ++ CRLF]
  /\ (exists rest, body = clipped ++ rest)
  /\ String.length clipped = Nat.min 256 (String.length body)
  /\ (String.length body = 500%nat -> String.length clipped = 256%nat)
  /\ ((String.length body <= 256)%nat -> clipped = body)
  /\ String.length (header ++ clipped ++ CRLF)
     = (String.length header + Nat.min 256 (String.length body) + 2)%nat.
Proof.
  intros Htrunc Hlevel Husable body clipped header.
  assert (String.length clipped = Nat.min 256 (String.length body)) as Hlen
    by apply substr_length.
  split; [| split; [| split; [| split; [| split]]]].
  - rewrite Log_events. simpl.
    destruct (Z.leb_spec nLevel (level_value (m_nLogLevel (logger w))));
      [lia |].
    unfold log_line. rewrite Htrunc.
    unfold sink_usable in Husable.
    destruct (m_bToFile (logger w)); simpl in *.
    + destruct (m_iLogFile (logger w) =? -1); [discriminate | reflexivity].
    + reflexivity.
  - apply substr_prefix.
  - exact Hlen.
  - intros H500. rewrite Hlen, H500. reflexivity.
  - intros Hshort. now apply substr_short.
  - rewrite !length_append, Hlen. simpl. lia.
Qed.

Lemma Log_truncates_body_only_witness :
  output_of (events_of
     (Log 3 "main.cpp" "main" 42 "%0500d" [ArgInt 7]) console_world)
  = [log_header (timestamp_of (os console_world)) 3
       (os_tid (os console_world)) "main.cpp" 42 "main"
     ++ substr 0 256 (format_string "%0500d" [ArgInt 7]) ++ CRLF]
  /\ String.length (format_string "%0500d" [ArgInt 7]) = 500%nat
  /\ String.length (substr 0 256 (format_string "%0500d" [ArgInt 7]))
     = 256%nat.
Proof.
  assert (String.length (format_string "%0500d" [ArgInt 7]) = 500%nat)
    as H500 by (vm_compute; reflexivity).
  destruct (Log_truncates_body_only console_world 3 "main.cpp" "main" 42
              "%0500d" [ArgInt 7])
    as (Hout & _ & _ & Hclip & _).
  - vm_compute; reflexivity.
  - vm_compute; reflexivity.
  - vm_compute; reflexivity.
  - split; [exact Hout | split; [exact H500 | exact (Hclip H500)]].
Defined.

(** ** Initialisation *)

Lemma format_concat (a b : string) :
  format_string "%s%s" [ArgStr a; ArgStr b] = a ++ b.
Proof.
  unfold format_string. simpl.
  now rewrite !TextFacts.pad_left_0, append_nil_r.
Qed.

(** Absent file name: flags assigned, then the early return. *)
Lemma Init_absent_run (w : World) (t : bool) :
  Init true t None w =
    (false,
     {| logger := configured (logger w) true t (m_iLogFile (logger w));
        os := os w; trace := trace w |}).
Proof. destruct w. reflexivity. Qed.

(** Console: flags assigned, nothing else. *)
Lemma Init_console_run (w : World) (t : bool) (name : option string) :
  Init false t name w =
    (true,
     {| logger := configured (logger w) false t (m_iLogFile (logger w));
        os := os w; trace := trace w |}).
Proof. destruct w. reflexivity. Qed.

(** File with a name: directory lookup, optional [mkdir], [open]. *)
Lemma Init_file_run (w : World) (t : bool) (name : string) :
  let dir := os_cwd (os w) ++ "/Log/" in
  let missing := Sys.access dir (os w) =? -1 in
  let o1 := if missing then snd (Sys.mkdir dir (os w)) else os w in
  let fd := fst (Sys.open (dir ++ name) o1) in
  Init true t (Some name) w =
    (negb (fd =? -1),
     {| logger := configured (logger w) true t fd;
        os := snd (Sys.open (dir ++ name) o1);
        trace := (trace w
                  ++ [EvGetcwd; EvAccess dir]
                  ++ (if missing then [EvMkdir dir] else [])
                  ++ [EvOpen (dir ++ name) fd])%list |}).
Proof.
  destruct w as [s o tr]. simpl.
  unfold Init, bind, set_m_bToFile, set_m_bTruncateLongLog, update. simpl.
  rewrite !format_concat.
  destruct (Sys.access _ o =? -1); simpl.
  - unfold mkdir, sys_call. simpl.
    destruct (Sys.mkdir _ o) as [r o1]. simpl.
    unfold open, sys_call. simpl.
    destruct (Sys.open _ o1) as [fd o2]. simpl.
    rewrite <- !app_assoc. simpl.
    now destruct (fd =? -1).
  - unfold open, sys_call. simpl.
    destruct (Sys.open _ o) as [fd o2]. simpl.
    rewrite <- !app_assoc. simpl.
    now destruct (fd =? -1).
Qed.

Lemma run_logs_preserves_logger (cs : list log_call) :
  forall w : World, logger (snd (run_logs cs w)) = logger w.
Proof.
  induction cs as [|c cs IH]; intros w; [reflexivity |].
  simpl. unfold bind.
  destruct (do_log c w) as [b w1] eqn:Hlog.
  specialize (IH w1).
  destruct (run_logs cs w1) as [bs w2]. simpl in *.
  rewrite IH.
  change w1 with (snd (b, w1)). rewrite <- Hlog.
  apply Log_preserves_logger.
Qed.

(** C10 (as stated) fails: after a successful file initialisation,
    [Init(true, t, nullptr)] returns false and keeps the stored handle,
    and the next call of [Log] above the threshold writes and returns
    true. *)
Lemma Init_absent_then_Log_false_fails :
  ~ (lc_level sample_call
     > level_value (m_nLogLevel (logger (snd (Init true true None file_world))))
     -> fst (do_log sample_call (snd (Init true true None file_world)))
        = false).
Proof.
  intros H. assert (true = false) as Habs; [| discriminate Habs].
  rewrite <- H; vm_compute; reflexivity.
Qed.

Example Init_absent_after_file_events :
  fst (Init true true None file_world) = false
  /\ m_iLogFile (logger (snd (Init true true None file_world))) = 3
  /\ existsb is_output
       (events_of (do_log sample_call)
          (snd (Init true true None file_world))) = true.
Proof. vm_compute. auto. Qed.

(** C10 (amended): [Init] assigns the destination and truncation flags
    before it validates its arguments.  [Init(true, t, nullptr)]
    returns false, yet the destination is File and the truncation flag
    is [t], the handle and the threshold being as before.  Every later
    call of [Log] above the threshold therefore takes the file branch
    (nothing goes to [printf]).  With the handle at the invalid
    sentinel it reads the clock and the thread id and returns false;
    with any other stored handle it seeks, writes its line to that
    handle and syncs. *)
Theorem Init_assigns_flags_before_validating (w : World) (t : bool) :
  let w1 := snd (Init true t None w) in
  fst (Init true t None w) = false
  /\ m_bToFile (logger w1) = true
  /\ m_bTruncateLongLog (logger w1) = t
  /\ m_iLogFile (logger w1) = m_iLogFile (logger w)
  /\ m_nLogLevel (logger w1) = m_nLogLevel (logger w)
  /\ (forall (earlier : list log_call) (c : log_call),
        lc_level c > level_value (m_nLogLevel (logger w)) ->
        existsb is_printf
          (events_of (do_log c) (snd (run_logs earlier w1))) = false)
  /\ (m_iLogFile (logger w) = -1 ->
      forall (earlier : list log_call) (c : log_call),
        lc_level c > level_value (m_nLogLevel (logger w)) ->
        fst (do_log c (snd (run_logs earlier w1))) = false
        /\ events_of (do_log c) (snd (run_logs earlier w1))
           = [EvGettimeofday; EvPthreadSelf])
  /\ (m_iLogFile (logger w) <> -1 ->
      forall (earlier : list log_call) (c : log_call),
        lc_level c > level_value (m_nLogLevel (logger w)) ->
        let w2 := snd (run_logs earlier w1) in
        let fd := m_iLogFile (logger w) in
        events_of (do_log c) w2
        = [EvGettimeofday; EvPthreadSelf; EvLseek fd;
           EvWrite fd (call_line (os w2) (logger w1) c); EvFsync fd]).
Proof.
  intros w1. subst w1. rewrite Init_absent_run. simpl.
  repeat (split; [reflexivity |]).
  split; [| split].
  - intros earlier c Hlevel.
    unfold do_log. rewrite Log_events. simpl.
    rewrite run_logs_preserves_logger. simpl.
    destruct (Z.leb_spec (lc_level c) (level_value (m_nLogLevel (logger w))));
      [lia |].
    now destruct (m_iLogFile (logger w) =? -1).
  - intros Hh earlier c Hlevel.
    unfold do_log. rewrite Log_events, Log_run. simpl.
    rewrite run_logs_preserves_logger. simpl.
    destruct (Z.leb_spec (lc_level c) (level_value (m_nLogLevel (logger w))));
      [lia |].
    rewrite Hh. simpl. auto.
  - intros Hh earlier c Hlevel.
    unfold do_log, call_line. rewrite Log_events. simpl.
    rewrite run_logs_preserves_logger. simpl.
    destruct (Z.leb_spec (lc_level c) (level_value (m_nLogLevel (logger w))));
      [lia |].
    destruct (Z.eqb_spec (m_iLogFile (logger w)) (-1)); [contradiction |].
    reflexivity.
Qed.

Lemma Init_assigns_flags_before_validating_witness :
  m_iLogFile (logger sample_world) = -1
  /\ lc_level sample_call
     > level_value (m_nLogLevel (logger sample_world))
  /\ fst (do_log sample_call
            (snd (run_logs [sample_call]
                    (snd (Init true true None sample_world))))) = false
  /\ emits (events_of (do_log sample_call)
              (snd (run_logs [sample_call]
                      (snd (Init true true None file_world))))) = true.
Proof.
  split; [reflexivity |]. split; [reflexivity |]. split.
  - refine (proj1
      (proj1 (proj2 (proj2 (proj2 (proj2 (proj2 (proj2
         (Init_assigns_flags_before_validating sample_world true)))))))
         _ [sample_call] sample_call _));
      vm_compute; reflexivity.
  - rewrite (proj2 (proj2 (proj2 (proj2 (proj2 (proj2 (proj2
         (Init_assigns_flags_before_validating file_world true)))))))
         ltac:(vm_compute; discriminate) [sample_call] sample_call
         ltac:(vm_compute; reflexivity)).
    reflexivity.
Defined.

(** ** Initialisation without a file name *)

(** C4 (as stated) fails: a present but empty file name passes the
    check and reaches the file system. *)
Lemma Init_empty_name_no_io_fails :
  ~ (fst (Init true false (Some "") sample_world) = false
     /\ events_of (Init true false (Some "")) sample_world = []).
Proof.
  intros [_ H]. vm_compute in H. discriminate H.
Qed.

Example Init_empty_name_events :
  events_of (Init true false (Some "")) sample_world
  = [EvGetcwd; EvAccess "/home/u/Log/"; EvMkdir "/home/u/Log/";
     EvOpen "/home/u/Log/" (-1)].
Proof. vm_compute. reflexivity. Qed.

(** C4 (amended): for every truncation flag, [Init] with [toFile = true]
    and an absent ([nullptr]) file name returns failure and performs no
    file-system I/O: no event, the operating system untouched.  A
    present but empty name is not caught by that test: [Init] goes on
    to [getcwd] and the directory lookup. *)
Theorem Init_absent_name_fails_without_io (w : World) (t : bool) :
  fst (Init true t None w) = false
  /\ events_of (Init true t None) w = []
  /\ os (snd (Init true t None w)) = os w
  /\ exists rest,
       events_of (Init true t (Some "")) w
       = EvGetcwd :: EvAccess (os_cwd (os w) ++ "/Log/") :: rest.
Proof.
  rewrite Init_absent_run. simpl.
  split; [reflexivity |]. split; [| split; [reflexivity |]].
  - unfold events_of. rewrite Init_absent_run. simpl.
    apply drop_all.
  - unfold events_of.
    pose proof (Init_file_run w t "") as Hrun. simpl in Hrun.
    rewrite Hrun. simpl. rewrite drop_app_length. simpl.
    eauto.
Qed.

(** ** Failures and the logger state *)

(** C3 (as stated) fails: [Init] without a file name returns failure
    after it has changed the destination and truncation flags. *)
Lemma Init_failure_keeps_state_fails :
  ~ (fst (Init true true None sample_world) = false ->
     logger (snd (Init true true None sample_world)) = logger sample_world).
Proof.
  intros H. specialize (H eq_refl). vm_compute in H. discriminate H.
Qed.

(** C3 (amended): [Init] and [Log] report the failures they detect by
    returning false: [Log] when the level is at or below the threshold
    or the destination is File and the handle is the invalid sentinel,
    [Init] when a file is asked for and the name is absent or the
    [open] returned -1.  A failing [Log] leaves the logger state and
    the operating system as they were.  A failing [Init] was asked for
    a file; it leaves the level threshold as it was, the destination
    flag is File and the truncation flag is the argument; the handle is
    as before when the name was absent and is the invalid sentinel when
    the open failed. *)
Theorem failures_are_returned
    (w : World) (nLevel : Z) (file func : string) (line : Z)
    (fmt : string) (args : list fmt_arg)
    (bToFile bTruncate : bool) (name : option string) :
  (nLevel <= level_value (m_nLogLevel (logger w))
   \/ (m_bToFile (logger w) = true /\ m_iLogFile (logger w) = -1) ->
   fst (Log nLevel file func line fmt args w) = false)
  /\ (bToFile = true -> name = None ->
      fst (Init bToFile bTruncate name w) = false)
  /\ (forall p,
        In (EvOpen p (-1)) (events_of (Init bToFile bTruncate name) w) ->
        fst (Init bToFile bTruncate name w) = false)
  /\ (fst (Log nLevel file func line fmt args w) = false ->
      logger (snd (Log nLevel file func line fmt args w)) = logger w
      /\ os (snd (Log nLevel file func line fmt args w)) = os w)
  /\ (fst (Init bToFile bTruncate name w) = false ->
      let s' := logger (snd (Init bToFile bTruncate name w)) in
      bToFile = true
      /\ m_nLogLevel s' = m_nLogLevel (logger w)
      /\ m_bToFile s' = true
      /\ m_bTruncateLongLog s' = bTruncate
      /\ (name = None ->
          m_iLogFile s' = m_iLogFile (logger w)
          /\ os (snd (Init bToFile bTruncate name w)) = os w)
      /\ (name <> None -> m_iLogFile s' = -1)).
Proof.
  split; [| split; [| split; [| split]]].
  - intros Hcause. rewrite Log_run. simpl.
    destruct (Z.leb_spec nLevel (level_value (m_nLogLevel (logger w))))
      as [_ | Hgt]; [reflexivity |].
    destruct Hcause as [Hle | [Hfile Hh]]; [lia |].
    rewrite Hfile, Hh. reflexivity.
  - intros -> ->. now rewrite Init_absent_run.
  - intros p Hin. unfold events_of in Hin. destruct bToFile.
    + destruct name as [name |].
      * pose proof (Init_file_run w bTruncate name) as Hrun.
        simpl in Hrun. rewrite Hrun in Hin |- *. simpl in Hin |- *.
        rewrite drop_app_length in Hin.
        assert (fst (Sys.open ((os_cwd (os w) ++ "/Log/") ++ name)
                       (if Sys.access (os_cwd (os w) ++ "/Log/") (os w) =? -1
                        then snd (Sys.mkdir (os_cwd (os w) ++ "/Log/") (os w))
                        else os w)) = -1) as ->; [| reflexivity].
        destruct (Sys.access _ _ =? -1); simpl in Hin;
          repeat (destruct Hin as [Hin | Hin]; try discriminate Hin);
          try contradiction; now injection Hin.
      * rewrite Init_absent_run in Hin. simpl in Hin.
        rewrite drop_all in Hin. contradiction.
    + rewrite Init_console_run in Hin. simpl in Hin.
      rewrite drop_all in Hin. contradiction.
  - rewrite Log_run. simpl.
    destruct (nLevel <=? _); [auto |].
    destruct (m_bToFile _); [destruct (m_iLogFile _ =? -1) |];
      simpl; auto; discriminate.
  - destruct bToFile.
    + destruct name as [name |].
      * pose proof (Init_file_run w bTruncate name) as Hrun.
        simpl in Hrun. rewrite Hrun. simpl.
        intros Hfail. apply negb_false_iff, Z.eqb_eq in Hfail.
        repeat split; auto; discriminate.
      * rewrite Init_absent_run. simpl.
        intros _. repeat split; auto; congruence.
    + rewrite Init_console_run. simpl. discriminate.
Qed.

Lemma failures_are_returned_witness :
  fst (do_log sample_call closed_file_world) = false
  /\ logger (snd (do_log sample_call closed_file_world))
     = logger closed_file_world
  /\ fst (Init true false (Some "") sample_world) = false
  /\ m_iLogFile (logger (snd (Init true false (Some "") sample_world))) = -1.
Proof.
  destruct (failures_are_returned closed_file_world
              (lc_level sample_call) (lc_file sample_call)
              (lc_func sample_call) (lc_line sample_call)
              (lc_fmt sample_call) (lc_args sample_call)
              true false None) as (Hdetected & _ & _ & HLog & _).
  destruct (failures_are_returned sample_world 0 "" "" 0 "" []
              true false (Some "")) as (_ & _ & Hopen & _ & HInit).
  assert (fst (do_log sample_call closed_file_world) = false) as H1.
  { apply Hdetected. right. split; vm_compute; reflexivity. }
  assert (fst (Init true false (Some "") sample_world) = false) as H2.
  { apply (Hopen "/home/u/Log/"). vm_compute. auto. }
  split; [exact H1 |]. split; [exact (proj1 (HLog H1)) |].
  split; [exact H2 |].
  apply (HInit H2). discriminate.
Defined.

(** ** Shutdown *)

(** C7 (as stated) fails: with the destination at Console, [UnInit]
    still closes a stored handle. *)
Lemma UnInit_console_noop_fails :
  ~ (m_bToFile (logger console_after_file_world) = false ->
     snd (UnInit console_after_file_world) = console_after_file_world).
Proof.
  intros H. specialize (H eq_refl).
  apply (f_equal (fun w => m_iLogFile (logger w))) in H.
  vm_compute in H. discriminate H.
Qed.

Example UnInit_console_after_file_events :
  events_of UnInit console_after_file_world = [EvClose 3].
Proof. vm_compute. reflexivity. Qed.

Lemma Sys_close_fds (fd : Z) (o : OS) :
  os_fds (snd (Sys.close fd o)) = delete fd (os_fds o).
Proof.
  unfold Sys.close.
  destruct (os_fds o !! fd) eqn:Hfd; simpl; [reflexivity |].
  symmetry. now apply delete_id.
Qed.

(** C7 (amended): [UnInit] looks at the stored handle only, not at the
    destination.  A handle other than the invalid sentinel is closed
    (one [close], the descriptor leaves the table) and the stored
    handle becomes the sentinel; with the sentinel stored, so for a
    console logger that never opened a file, the call changes nothing.
    A second [UnInit] changes nothing: twice is the same as once. *)
Theorem UnInit_idempotent (w : World) :
  let fd := m_iLogFile (logger w) in
  let w' := snd (UnInit w) in
  (fd <> -1 ->
   events_of UnInit w = [EvClose fd]
   /\ os_fds (os w') = delete fd (os_fds (os w)))
  /\ m_iLogFile (logger w') = -1
  /\ (fd = -1 -> UnInit w = (tt, w))
  /\ UnInit w' = (tt, w').
Proof.
  intros fd w'. subst fd w'.
  split; [| split; [apply UnInit_handle | split]].
  - intros Hfd. unfold events_of. rewrite UnInit_run.
    destruct (Z.eqb_spec (m_iLogFile (logger w)) (-1)) as [H | _];
      [contradiction |].
    simpl. rewrite drop_app_length. split; [reflexivity |].
    apply Sys_close_fds.
  - intros Hfd. rewrite UnInit_run, Hfd. reflexivity.
  - rewrite (UnInit_run (snd (UnInit w))), UnInit_handle. reflexivity.
Qed.

Lemma UnInit_idempotent_witness :
  m_iLogFile (logger file_world) <> -1
  /\ events_of UnInit file_world = [EvClose (m_iLogFile (logger file_world))]
  /\ UnInit closed_file_world = (tt, closed_file_world).
Proof.
  assert (m_iLogFile (logger file_world) <> -1) as Hfd
    by (vm_compute; discriminate).
  assert (m_iLogFile (logger closed_file_world) = -1) as Hclosed
    by (vm_compute; reflexivity).
  split; [exact Hfd |]. split.
  - exact (proj1 (proj1 (UnInit_idempotent file_world) Hfd)).
  - exact (proj1 (proj2 (proj2 (UnInit_idempotent closed_file_world)))
             Hclosed).
Defined.

(** ** Re-initialisation *)

(** C2 (as stated) fails: the second [Init] opens descriptor 4 while
    descriptor 3 of the first one is still open. *)
Lemma Init_twice_one_handle_fails :
  ~ (size (os_fds (os twice_file_world)) <= 1)%nat.
Proof.
  assert (size (os_fds (os twice_file_world)) = 2%nat) as ->
    by (vm_compute; reflexivity).
  lia.
Qed.

Example Init_twice_descriptors :
  map_to_list (os_fds (os twice_file_world))
  = [(3, "/home/u/Log/app.log"); (4, "/home/u/Log/app.log")]
  /\ m_iLogFile (logger twice_file_world) = 4
  /\ existsb is_close (trace twice_file_world) = false.
Proof. vm_compute. auto. Qed.

Lemma fresh_fd_spec (fds : gmap Z string) (n : nat) :
  forall start fd : Z,
    fresh_fd fds start n = Some fd -> start <= fd /\ fds !! fd = None.
Proof.
  induction n as [|n IH]; intros start fd H; simpl in H; [discriminate |].
  destruct (fds !! start) eqn:Hs.
  - apply IH in H. split; [lia | apply H].
  - injection H as <-. split; [lia | exact Hs].
Qed.

Lemma Sys_mkdir_fds (dir : string) (o : OS) :
  os_fds (snd (Sys.mkdir dir o)) = os_fds o.
Proof.
  unfold Sys.mkdir.
  destruct (Sys.access dir o =? 0); [reflexivity |].
  now destruct (bool_decide _).
Qed.

(** [open] either fails and changes nothing, or adds one descriptor
    that was free. *)
Lemma Sys_open_fds (path : string) (o : OS) :
  (fst (Sys.open path o) = -1 /\ snd (Sys.open path o) = o)
  \/ (3 <= fst (Sys.open path o)
      /\ os_fds o !! fst (Sys.open path o) = None
      /\ os_fds (snd (Sys.open path o))
         = <[fst (Sys.open path o) := path]> (os_fds o)).
Proof.
  unfold Sys.open.
  destruct (bool_decide (path ∈ os_dirs o)); [now left |].
  destruct (bool_decide (dirname path ∈ os_dirs o)); [| now left].
  destruct (fresh_fd (os_fds o) 3 (os_fd_limit o)) as [fd |] eqn:Hfd;
    [| now left].
  apply fresh_fd_spec in Hfd. right. simpl. tauto.
Qed.

(** What [Init] does to the descriptor table: nothing, or one new
    descriptor, which is then the stored handle. *)
Lemma Init_fds (w : World) (b t : bool) (name : option string) :
  let w' := snd (Init b t name w) in
  (os_fds (os w') = os_fds (os w)
   /\ (b = true -> fst (Init b t name w) = false))
  \/ (b = true /\ fst (Init b t name w) = true
      /\ 3 <= m_iLogFile (logger w')
      /\ os_fds (os w) !! m_iLogFile (logger w') = None
      /\ exists p,
           os_fds (os w')
           = <[m_iLogFile (logger w') := p]> (os_fds (os w))).
Proof.
  destruct b.
  - destruct name as [name |].
    + pose proof (Init_file_run w t name) as Hrun. simpl in Hrun.
      simpl. rewrite Hrun. simpl.
      set (dir := os_cwd (os w) ++ "/Log/") in *.
      set (o1 := if Sys.access dir (os w) =? -1
                 then snd (Sys.mkdir dir (os w)) else os w) in *.
      assert (os_fds o1 = os_fds (os w)) as Ho1.
      { subst o1. destruct (Sys.access dir (os w) =? -1);
          [apply Sys_mkdir_fds | reflexivity]. }
      destruct (Sys_open_fds (dir ++ name) o1)
        as [[Hfd Ho] | (Hfd & Hfree & Hins)].
      * left. rewrite Ho, Hfd. simpl. auto.
      * right. rewrite Hins, <- Ho1.
        destruct (Z.eqb_spec (fst (Sys.open (dir ++ name) o1)) (-1));
          [lia |].
        simpl. eauto 10.
    + left. rewrite Init_absent_run. simpl. auto.
  - left. rewrite Init_console_run. simpl. split; [reflexivity | discriminate].
Qed.

Lemma Init_events_no_close (w : World) (b t : bool) (name : option string) :
  existsb is_close (events_of (Init b t name) w) = false.
Proof.
  unfold events_of. destruct b.
  - destruct name as [name |].
    + pose proof (Init_file_run w t name) as Hrun. simpl in Hrun.
      rewrite Hrun. simpl. rewrite drop_app_length.
      now destruct (Sys.access _ _ =? -1).
    + rewrite Init_absent_run. simpl. now rewrite drop_all.
  - rewrite Init_console_run. simpl. now rewrite drop_all.
Qed.

(** After [UnInit] the descriptor table has lost the stored handle. *)
Lemma UnInit_fds (w : World) :
  os_fds (os (snd (UnInit w)))
  = if m_iLogFile (logger w) =? -1 then os_fds (os w)
    else delete (m_iLogFile (logger w)) (os_fds (os w)).
Proof.
  rewrite UnInit_run.
  destruct (m_iLogFile (logger w) =? -1); simpl;
    [reflexivity | apply Sys_close_fds].
Qed.

(** C2 (amended): [Init] never closes a descriptor.  Every descriptor
    open before the call is open after it; a successful call with
    [toFile = true] stores a descriptor that was free before, so the
    number of open descriptors grows by one and a handle stored by an
    earlier [Init] stays open.  At most one descriptor is open when the
    first [Init] starts with none open and [UnInit] is called before
    the second. *)
Theorem Init_never_closes_prior_handle
    (w : World) (b t : bool) (name : option string) :
  let w' := snd (Init b t name w) in
  existsb is_close (events_of (Init b t name) w) = false
  /\ os_fds (os w) ⊆ os_fds (os w')
  /\ (b = true -> fst (Init b t name w) = true ->
      os_fds (os w) !! m_iLogFile (logger w') = None
      /\ is_Some (os_fds (os w') !! m_iLogFile (logger w'))
      /\ size (os_fds (os w')) = S (size (os_fds (os w))))
  /\ (os_fds (os w) = ∅ ->
      forall (b2 t2 : bool) (name2 : option string),
        (size (os_fds (os (snd ((UnInit >> Init b2 t2 name2) w')))) <= 1)%nat).
Proof.
  intros w'. subst w'.
  split; [apply Init_events_no_close |].
  pose proof (Init_fds w b t name) as Hfds. simpl in Hfds.
  split; [| split].
  - destruct Hfds as [[-> _] | (_ & _ & _ & Hfree & p & ->)];
      [reflexivity | now apply insert_subseteq].
  - intros Hb Hok.
    destruct Hfds as [[_ Hfail] | (_ & _ & _ & Hfree & p & Hins)].
    + rewrite (Hfail Hb) in Hok. discriminate.
    + rewrite Hins. split; [exact Hfree |]. split.
      * rewrite lookup_insert_eq. eauto.
      * now apply map_size_insert_None.
  - intros Hempty b2 t2 name2. unfold bind.
    destruct (UnInit (snd (Init b t name w))) as [[] w2] eqn:Hun.
    assert (os_fds (os w2) = ∅) as Hw2.
    { replace w2 with (snd (UnInit (snd (Init b t name w))))
        by now rewrite Hun.
      rewrite UnInit_fds.
      destruct Hfds as [[Hsame _] | (_ & _ & Hge & _ & p & Hins)].
      - rewrite Hsame, Hempty.
        destruct (_ =? -1); [reflexivity | apply delete_empty].
      - rewrite Hins, Hempty.
        destruct (Z.eqb_spec (m_iLogFile (logger (snd (Init b t name w))))
                    (-1)); [lia |].
        apply delete_insert_id. apply lookup_empty. }
    pose proof (Init_fds w2 b2 t2 name2) as Hfds2. simpl in Hfds2.
    destruct Hfds2 as [[-> _] | (_ & _ & _ & _ & p & ->)]; rewrite Hw2.
    + rewrite map_size_empty. lia.
    + rewrite insert_empty, map_size_singleton. lia.
Qed.

Lemma Init_never_closes_prior_handle_witness :
  size (os_fds (os twice_file_world)) = S (size (os_fds (os file_world)))
  /\ (size (os_fds (os (snd ((UnInit >> Init true true (Some "app.log"))
                               file_world)))) <= 1)%nat.
Proof.
  split.
  - refine (proj2 (proj2 (proj1 (proj2 (proj2
      (Init_never_closes_prior_handle file_world true true
         (Some "app.log")))) _ _))); vm_compute; reflexivity.
  - refine (proj2 (proj2 (proj2
      (Init_never_closes_prior_handle sample_world true true
         (Some "app.log")))) _ true true (Some "app.log")).
    vm_compute. reflexivity.
Defined.

(** * Further properties of the logger *)

(** ** Runs of calls *)

Lemma run_logs_cons (c : log_call) (cs : list log_call) (w : World) :
  fst (run_logs (c :: cs) w)
  = fst (do_log c w) :: fst (run_logs cs (snd (do_log c w)))
  /\ snd (run_logs (c :: cs) w) = snd (run_logs cs (snd (do_log c w))).
Proof.
  simpl. unfold bind.
  destruct (do_log c w) as [b w1]. simpl.
  destruct (run_logs cs w1) as [bs w2]. simpl. auto.
Qed.

Lemma set_stdout_same (o : OS) : Sys.set_stdout (os_stdout o) o = o.
Proof. now destruct o. Qed.

(** A line depends on the operating system through the clock and the
    thread id only. *)
Lemma call_line_ext (o o' : OS) (s : LoggerState) (c : log_call) :
  os_now o' = os_now o -> os_localtime o' = os_localtime o ->
  os_tid o' = os_tid o -> call_line o' s c = call_line o s c.
Proof.
  intros Hn Hl Ht. unfold call_line, log_line, timestamp_of.
  now rewrite Hn, Hl, Ht.
Qed.

Lemma lines_of_ext (o o' : OS) (s : LoggerState) (cs : list log_call) :
  os_now o' = os_now o -> os_localtime o' = os_localtime o ->
  os_tid o' = os_tid o -> lines_of o' s cs = lines_of o s cs.
Proof.
  intros Hn Hl Ht. induction cs as [|c cs IH]; [reflexivity |].
  simpl. now rewrite IH, (call_line_ext o o' s c Hn Hl Ht).
Qed.

(** One call on a console logger. *)
Lemma do_log_console (w : World) (c : log_call) :
  m_bToFile (logger w) = false ->
  fst (do_log c w) = passes (logger w) c
  /\ logger (snd (do_log c w)) = logger w
  /\ os (snd (do_log c w))
     = Sys.set_stdout
         (os_stdout (os w)
          ++ (if passes (logger w) c then call_line (os w) (logger w) c
              else "")) (os w).
Proof.
  intros Hcon. unfold do_log, passes, call_line.
  rewrite Log_run. simpl. rewrite Hcon.
  destruct (lc_level c <=? _); simpl.
  - rewrite append_nil_r, set_stdout_same. auto.
  - auto.
Qed.

Lemma run_logs_console (cs : list log_call) :
  forall w : World,
    m_bToFile (logger w) = false ->
    fst (run_logs cs w) = map (passes (logger w)) cs
    /\ logger (snd (run_logs cs w)) = logger w
    /\ os (snd (run_logs cs w))
       = Sys.set_stdout
           (os_stdout (os w) ++ lines_of (os w) (logger w) cs) (os w).
Proof.
  induction cs as [|c cs IH]; intros w Hcon.
  - simpl. rewrite append_nil_r, set_stdout_same. auto.
  - destruct (run_logs_cons c cs w) as [-> ->].
    destruct (do_log_console w c Hcon) as (Hb & Hs & Ho).
    destruct (IH (snd (do_log c w))) as (Hbs & Hs' & Ho').
    { now rewrite Hs. }
    rewrite Hbs, Hs', Ho', Hb, Hs, Ho. simpl.
    repeat split.
    rewrite (lines_of_ext (os w)) by reflexivity.
    now rewrite append_assoc.
Qed.

(** X7: on a console logger the calls of a run return true exactly
    when they pass the filter, and standard output grows by their
    lines, complete and in call order; files, descriptors and
    directories are untouched and the logger state is as before. *)
Theorem run_logs_console_prints_in_order
    (cs : list log_call) (w : World) :
  m_bToFile (logger w) = false ->
  let w' := snd (run_logs cs w) in
  fst (run_logs cs w) = map (passes (logger w)) cs
  /\ logger w' = logger w
  /\ os_stdout (os w') = os_stdout (os w) ++ lines_of (os w) (logger w) cs
  /\ os_files (os w') = os_files (os w)
  /\ os_fds (os w') = os_fds (os w)
  /\ os_dirs (os w') = os_dirs (os w).
Proof.
  intros Hcon w'. subst w'.
  destruct (run_logs_console cs w Hcon) as (Hb & Hs & Ho).
  split; [exact Hb |]. split; [exact Hs |].
  rewrite Ho. simpl. auto.
Qed.

Lemma run_logs_console_prints_in_order_witness :
  fst (run_logs [sample_call; sample_call] console_world) = [true; true]
  /\ os_stdout (os (snd (run_logs [sample_call; sample_call] console_world)))
     = call_line (os console_world) (logger console_world) sample_call
       ++ call_line (os console_world) (logger console_world) sample_call.
Proof.
  destruct (run_logs_console_prints_in_order [sample_call; sample_call]
              console_world) as (Hb & _ & Ho & _).
  - vm_compute; reflexivity.
  - split; [rewrite Hb; vm_compute; reflexivity |].
    rewrite Ho. vm_compute. reflexivity.
Defined.

Lemma same_but_files_refl (o : OS) : same_but_files o o.
Proof. unfold same_but_files. tauto. Qed.

Lemma same_but_files_trans (o1 o2 o3 : OS) :
  same_but_files o1 o2 -> same_but_files o2 o3 -> same_but_files o1 o3.
Proof.
  unfold same_but_files.
  intros (A1 & A2 & A3 & A4 & A5 & A6 & A7 & A8)
         (B1 & B2 & B3 & B4 & B5 & B6 & B7 & B8).
  repeat split; congruence.
Qed.

Lemma Sys_write_open (fd : Z) (path data : string) (o : OS) :
  os_fds o !! fd = Some path ->
  Sys.write fd data o
  = (Z.of_nat (String.length data),
     Sys.set_files (<[path := content o path ++ data]> (os_files o)) o).
Proof. intros H. unfold Sys.write, content. now rewrite H. Qed.

(** One call on a file logger whose stored handle is an open
    descriptor for [path]. *)
Lemma do_log_file (w : World) (c : log_call) (path : string) :
  m_bToFile (logger w) = true ->
  m_iLogFile (logger w) <> -1 ->
  os_fds (os w) !! m_iLogFile (logger w) = Some path ->
  let w1 := snd (do_log c w) in
  fst (do_log c w) = passes (logger w) c
  /\ logger w1 = logger w
  /\ same_but_files (os w) (os w1)
  /\ content (os w1) path
     = content (os w) path
       ++ (if passes (logger w) c then call_line (os w) (logger w) c else "")
  /\ (forall p, p <> path -> os_files (os w1) !! p = os_files (os w) !! p).
Proof.
  intros Hfile Hfd Hopen w1. subst w1.
  unfold do_log, passes, call_line.
  rewrite Log_run. simpl. rewrite Hfile.
  destruct (lc_level c <=? _); simpl.
  - rewrite append_nil_r.
    split; [reflexivity |]. split; [reflexivity |].
    split; [apply same_but_files_refl | auto].
  - destruct (Z.eqb_spec (m_iLogFile (logger w)) (-1)); [contradiction |].
    simpl. rewrite (Sys_write_open _ path _ _ Hopen). simpl.
    repeat split; auto.
    + unfold content at 1. simpl. now rewrite lookup_insert_eq.
    + intros p Hp. now rewrite lookup_insert_ne.
Qed.

Lemma run_logs_file (cs : list log_call) :
  forall (w : World) (path : string),
    m_bToFile (logger w) = true ->
    m_iLogFile (logger w) <> -1 ->
    os_fds (os w) !! m_iLogFile (logger w) = Some path ->
    let w' := snd (run_logs cs w) in
    fst (run_logs cs w) = map (passes (logger w)) cs
    /\ logger w' = logger w
    /\ same_but_files (os w) (os w')
    /\ content (os w') path
       = content (os w) path ++ lines_of (os w) (logger w) cs
    /\ (forall p, p <> path -> os_files (os w') !! p = os_files (os w) !! p).
Proof.
  induction cs as [|c cs IH]; intros w path Hfile Hfd Hopen w'; subst w'.
  - simpl. rewrite append_nil_r.
    split; [reflexivity |]. split; [reflexivity |].
    split; [apply same_but_files_refl | auto].
  - destruct (run_logs_cons c cs w) as [-> ->].
    destruct (do_log_file w c path Hfile Hfd Hopen)
      as (Hb & Hs & Hsame & Hcont & Hother).
    pose proof Hsame as (_ & _ & Hfds & _ & _ & Hnow & Hloc & Htid).
    destruct (IH (snd (do_log c w)) path)
      as (Hbs & Hs' & Hsame' & Hcont' & Hother').
    { now rewrite Hs. }
    { now rewrite Hs. }
    { now rewrite Hs, Hfds. }
    rewrite Hbs, Hs', Hcont', Hcont, Hb, Hs. simpl.
    split; [reflexivity |]. split; [reflexivity |].
    split; [exact (same_but_files_trans _ _ _ Hsame Hsame') |].
    split.
    + rewrite (lines_of_ext (os w) _ _ _ Hnow Hloc Htid).
      now rewrite append_assoc.
    + intros p Hp. now rewrite Hother', Hother.
Qed.

(** X4: on a file logger whose stored handle is an open descriptor the
    calls of a run return true exactly when they pass the filter, and
    the file grows at its end by their lines, complete and in call
    order, although every call seeks to the start first.  What the file
    held before is kept; other files, the descriptor table, the
    directories and standard output are untouched. *)
Theorem run_logs_file_appends_in_order
    (cs : list log_call) (w : World) (path : string) :
  m_bToFile (logger w) = true ->
  m_iLogFile (logger w) <> -1 ->
  os_fds (os w) !! m_iLogFile (logger w) = Some path ->
  let w' := snd (run_logs cs w) in
  fst (run_logs cs w) = map (passes (logger w)) cs
  /\ logger w' = logger w
  /\ content (os w') path
     = content (os w) path ++ lines_of (os w) (logger w) cs
  /\ (forall p, p <> path -> os_files (os w') !! p = os_files (os w) !! p)
  /\ os_fds (os w') = os_fds (os w)
  /\ os_dirs (os w') = os_dirs (os w)
  /\ os_stdout (os w') = os_stdout (os w).
Proof.
  intros Hfile Hfd Hopen w'. subst w'.
  destruct (run_logs_file cs w path Hfile Hfd Hopen)
    as (Hb & Hs & Hsame & Hcont & Hother).
  destruct Hsame as (_ & Hdirs & Hfds & _ & Hout & _).
  repeat (split; [assumption |]). exact Hout.
Qed.

Lemma run_logs_file_appends_in_order_witness :
  fst (run_logs [sample_call; sample_call] file_world) = [true; true]
  /\ content (os (snd (run_logs [sample_call; sample_call] file_world)))
       "/home/u/Log/app.log"
     = call_line (os file_world) (logger file_world) sample_call
       ++ call_line (os file_world) (logger file_world) sample_call.
Proof.
  destruct (run_logs_file_appends_in_order [sample_call; sample_call]
              file_world "/home/u/Log/app.log")
    as (Hb & _ & Hc & _).
  - vm_compute; reflexivity.
  - vm_compute; discriminate.
  - vm_compute; reflexivity.
  - split; [rewrite Hb; vm_compute; reflexivity |].
    rewrite Hc. vm_compute. reflexivity.
Defined.

(** X6: the result of [write] is not looked at.  With a stored handle
    that is not an open descriptor the write fails, nothing reaches any
    file or standard output, and [Log] still returns true. *)
Theorem Log_ignores_write_failure
    (w : World) (nLevel : Z) (file func : string) (line : Z)
    (fmt : string) (args : list fmt_arg) :
  m_bToFile (logger w) = true ->
  m_iLogFile (logger w) <> -1 ->
  os_fds (os w) !! m_iLogFile (logger w) = None ->
  nLevel > level_value (m_nLogLevel (logger w)) ->
  let text := log_line (os w) (m_bTruncateLongLog (logger w)) nLevel
                file func line fmt args in
  fst (Sys.write (m_iLogFile (logger w)) text (os w)) = -1
  /\ fst (Log nLevel file func line fmt args w) = true
  /\ os (snd (Log nLevel file func line fmt args w)) = os w.
Proof.
  intros Hfile Hfd Hclosed Hlevel text. subst text.
  rewrite Log_run. simpl. rewrite Hfile.
  destruct (Z.leb_spec nLevel (level_value (m_nLogLevel (logger w))));
    [lia |].
  destruct (Z.eqb_spec (m_iLogFile (logger w)) (-1)); [contradiction |].
  unfold Sys.write. rewrite Hclosed. simpl. auto.
Qed.

Lemma Log_ignores_write_failure_witness :
  fst (do_log sample_call stale_handle_world) = true
  /\ os (snd (do_log sample_call stale_handle_world)) = os stale_handle_world.
Proof.
  refine (proj2 (Log_ignores_write_failure stale_handle_world
            (lc_level sample_call) (lc_file sample_call)
            (lc_func sample_call) (lc_line sample_call)
            (lc_fmt sample_call) (lc_args sample_call) _ _ _ _));
    vm_compute; (reflexivity || discriminate).
Defined.

(** ** What initialisation does to the operating system *)

Lemma os_extends_refl (o : OS) : os_extends o o.
Proof. unfold os_extends. repeat split; auto. Qed.

Lemma os_extends_trans (o1 o2 o3 : OS) :
  os_extends o1 o2 -> os_extends o2 o3 -> os_extends o1 o3.
Proof.
  unfold os_extends.
  intros (A1 & A2 & A3 & A4 & A5 & A6 & A7 & A8 & A9)
         (B1 & B2 & B3 & B4 & B5 & B6 & B7 & B8 & B9).
  do 6 (split; [congruence |]).
  split; [set_solver |]. split.
  - intros p c H. apply B8, A8, H.
  - intros p. now rewrite B9, A9.
Qed.

Lemma Sys_mkdir_extends (dir : string) (o : OS) :
  os_extends o (snd (Sys.mkdir dir o)).
Proof.
  unfold Sys.mkdir.
  destruct (Sys.access dir o =? 0); [apply os_extends_refl |].
  destruct (bool_decide _); [| apply os_extends_refl].
  unfold os_extends. simpl. repeat split; auto. set_solver.
Qed.

Lemma Sys_open_extends (path : string) (o : OS) :
  os_extends o (snd (Sys.open path o)).
Proof.
  unfold Sys.open.
  destruct (bool_decide (path ∈ os_dirs o)); [apply os_extends_refl |].
  destruct (bool_decide _); [| apply os_extends_refl].
  destruct (fresh_fd _ _ _) as [fd |]; [| apply os_extends_refl].
  unfold os_extends, content. simpl.
  destruct (os_files o !! path) as [c0 |] eqn:Hpath.
  - repeat split; auto.
  - repeat split; auto.
    + intros p c Hp. rewrite lookup_insert_ne; [exact Hp | congruence].
    + intros p. destruct (decide (path = p)) as [<- | Hne].
      * now rewrite lookup_insert_eq, Hpath.
      * now rewrite lookup_insert_ne.
Qed.

Lemma Init_extends (w : World) (b t : bool) (name : option string) :
  os_extends (os w) (os (snd (Init b t name w))).
Proof.
  destruct b.
  - destruct name as [name |].
    + pose proof (Init_file_run w t name) as Hrun. simpl in Hrun.
      rewrite Hrun. simpl.
      eapply os_extends_trans; [| apply Sys_open_extends].
      destruct (Sys.access _ _ =? -1);
        [apply Sys_mkdir_extends | apply os_extends_refl].
    + rewrite Init_absent_run. apply os_extends_refl.
  - rewrite Init_console_run. apply os_extends_refl.
Qed.

(** A successful file initialisation: the stored handle is a
    descriptor that was free, now open on [log_path]. *)
Lemma Init_file_success (w : World) (t : bool) (name : string) :
  fst (Init true t (Some name) w) = true ->
  let w1 := snd (Init true t (Some name) w) in
  logger w1 = configured (logger w) true t (m_iLogFile (logger w1))
  /\ m_iLogFile (logger w1) <> -1
  /\ os_fds (os w) !! m_iLogFile (logger w1) = None
  /\ os_fds (os w1)
     = <[m_iLogFile (logger w1) := log_path (os w) name]> (os_fds (os w)).
Proof.
  pose proof (Init_file_run w t name) as Hrun. simpl in Hrun.
  rewrite Hrun. simpl. unfold log_path.
  set (dir := os_cwd (os w) ++ "/Log/") in *.
  set (o1 := if Sys.access dir (os w) =? -1
             then snd (Sys.mkdir dir (os w)) else os w) in *.
  assert (os_fds o1 = os_fds (os w)) as Ho1.
  { subst o1. destruct (Sys.access dir (os w) =? -1);
      [apply Sys_mkdir_fds | reflexivity]. }
  intros Hok. apply negb_true_iff, Z.eqb_neq in Hok.
  destruct (Sys_open_fds (dir ++ name) o1)
    as [[Hfd _] | (_ & Hfree & Hins)]; [contradiction |].
  rewrite <- Ho1. auto.
Qed.

(** X5: after a successful [Init] for a file name, the lines of the
    calls that pass the filter are appended, in call order, to the file
    [<cwd>/Log/<name>], after whatever the file held before [Init];
    every such call returns true. *)
Theorem Init_then_logs_reach_log_file
    (w : World) (t : bool) (name : string) (cs : list log_call) :
  fst (Init true t (Some name) w) = true ->
  let w1 := snd (Init true t (Some name) w) in
  let w2 := snd (run_logs cs w1) in
  let path := (os_cwd (os w) ++ "/Log/") ++ name in
  m_nLogLevel (logger w1) = m_nLogLevel (logger w)
  /\ fst (run_logs cs w1) = map (passes (logger w1)) cs
  /\ content (os w2) path
     = content (os w) path ++ lines_of (os w) (logger w1) cs.
Proof.
  intros Hok w1 w2 path. subst w1 w2 path.
  destruct (Init_file_success w t name Hok) as (Hs & Hfd & _ & Hfds).
  destruct (Init_extends w true t (Some name))
    as (_ & _ & _ & Hnow & Hloc & Htid & _ & _ & Hcont).
  set (w1 := snd (Init true t (Some name) w)) in *.
  destruct (run_logs_file cs w1 (log_path (os w) name))
    as (Hb & _ & _ & Hc & _).
  - now rewrite Hs.
  - exact Hfd.
  - now rewrite Hfds, lookup_insert_eq.
  - split; [now rewrite Hs |]. split; [exact Hb |].
    fold (log_path (os w) name).
    rewrite Hc, Hcont.
    now rewrite (lines_of_ext (os w) (os w1) _ _ Hnow Hloc Htid).
Qed.

Lemma Init_then_logs_reach_log_file_witness :
  content (os (snd (run_logs [sample_call]
                      (snd (Init true false (Some "app.log") sample_world)))))
    "/home/u/Log/app.log"
  = call_line sample_os
      (logger (snd (Init true false (Some "app.log") sample_world)))
      sample_call.
Proof.
  destruct (Init_then_logs_reach_log_file sample_world false "app.log"
              [sample_call]) as (_ & _ & Hc).
  - vm_compute; reflexivity.
  - etransitivity; [exact Hc |]. vm_compute. reflexivity.
Defined.

(** X2: a successful [Init] for a file followed by [UnInit] gives the
    descriptor table back as it was: the descriptor [Init] opened, and
    no other, is closed, and the stored handle is the invalid
    sentinel. *)
Theorem Init_then_UnInit_restores_descriptors
    (w : World) (t : bool) (name : string) :
  fst (Init true t (Some name) w) = true ->
  let w1 := snd (Init true t (Some name) w) in
  let w2 := snd (UnInit w1) in
  events_of UnInit w1 = [EvClose (m_iLogFile (logger w1))]
  /\ os_fds (os w2) = os_fds (os w)
  /\ m_iLogFile (logger w2) = -1.
Proof.
  intros Hok w1 w2. subst w1 w2.
  destruct (Init_file_success w t name Hok) as (_ & Hfd & Hfree & Hfds).
  set (w1 := snd (Init true t (Some name) w)) in *.
  split; [| split].
  - unfold events_of. rewrite UnInit_run.
    destruct (Z.eqb_spec (m_iLogFile (logger w1)) (-1)); [contradiction |].
    simpl. apply drop_app_length.
  - rewrite UnInit_fds.
    destruct (Z.eqb_spec (m_iLogFile (logger w1)) (-1)); [contradiction |].
    rewrite Hfds. now apply delete_insert_id.
  - apply UnInit_handle.
Qed.

Lemma Init_then_UnInit_restores_descriptors_witness :
  os_fds (os (snd (UnInit
                     (snd (Init true true (Some "b.log") file_world)))))
  = os_fds (os file_world).
Proof.
  refine (proj1 (proj2
    (Init_then_UnInit_restores_descriptors file_world true "b.log" _))).
  vm_compute. reflexivity.
Defined.

(** X3: when the [open] in [Init] fails, the handle stored before is
    overwritten with the invalid sentinel while its descriptor stays
    open: a following [UnInit] closes nothing and the descriptor table
    is what it was before [Init]. *)
Theorem Init_open_failure_forgets_handle
    (w : World) (t : bool) (name : string) :
  fst (Init true t (Some name) w) = false ->
  let w1 := snd (Init true t (Some name) w) in
  m_iLogFile (logger w1) = -1
  /\ os_fds (os w1) = os_fds (os w)
  /\ UnInit w1 = (tt, w1)
  /\ (forall p, os_fds (os w) !! m_iLogFile (logger w) = Some p ->
      os_fds (os (snd (UnInit w1))) !! m_iLogFile (logger w) = Some p).
Proof.
  intros Hfail w1. subst w1.
  pose proof (Init_fds w true t (Some name)) as Hfds. simpl in Hfds.
  pose proof (Init_file_run w t name) as Hrun. simpl in Hrun.
  assert (m_iLogFile (logger (snd (Init true t (Some name) w))) = -1) as Hh.
  { rewrite Hrun in Hfail |- *. simpl in *.
    now apply negb_false_iff, Z.eqb_eq in Hfail. }
  destruct Hfds as [[Hsame _] | (_ & Hok & _)];
    [| rewrite Hok in Hfail; discriminate].
  assert (UnInit (snd (Init true t (Some name) w))
          = (tt, snd (Init true t (Some name) w))) as Hun
    by (rewrite UnInit_run, Hh; reflexivity).
  split; [exact Hh |]. split; [exact Hsame |]. split; [exact Hun |].
  intros p Hp. rewrite Hun. simpl. now rewrite Hsame.
Qed.

Lemma Init_open_failure_forgets_handle_witness :
  m_iLogFile (logger (snd (Init true true (Some "") file_world))) = -1
  /\ os_fds (os (snd (UnInit (snd (Init true true (Some "") file_world)))))
       !! m_iLogFile (logger file_world)
     = Some "/home/u/Log/app.log".
Proof.
  destruct (Init_open_failure_forgets_handle file_world true "")
    as (Hh & _ & _ & Hleak).
  - vm_compute; reflexivity.
  - split; [exact Hh |]. apply Hleak. vm_compute. reflexivity.
Defined.

Lemma Init_events_no_output (w : World) (b t : bool) (name : option string) :
  existsb is_output (events_of (Init b t name) w) = false.
Proof.
  unfold events_of. destruct b.
  - destruct name as [name |].
    + pose proof (Init_file_run w t name) as Hrun. simpl in Hrun.
      rewrite Hrun. simpl. rewrite drop_app_length.
      now destruct (Sys.access _ _ =? -1).
    + rewrite Init_absent_run. simpl. now rewrite drop_all.
  - rewrite Init_console_run. simpl. now rewrite drop_all.
Qed.

(** X12: [Init] never writes: whatever its arguments and result, it
    hands nothing to [write] or [printf], standard output is as before,
    every file that existed keeps its content (an existing log file is
    not truncated), every directory that existed still exists, and the
    level threshold is not touched. *)
Theorem Init_keeps_files_and_output
    (w : World) (b t : bool) (name : option string) :
  let w' := snd (Init b t name w) in
  existsb is_output (events_of (Init b t name) w) = false
  /\ os_stdout (os w') = os_stdout (os w)
  /\ (forall p c, os_files (os w) !! p = Some c ->
                  os_files (os w') !! p = Some c)
  /\ os_dirs (os w) ⊆ os_dirs (os w')
  /\ m_nLogLevel (logger w') = m_nLogLevel (logger w).
Proof.
  intros w'. subst w'.
  destruct (Init_extends w b t name)
    as (_ & Hout & _ & _ & _ & _ & Hdirs & Hfiles & _).
  split; [apply Init_events_no_output |].
  split; [exact Hout |]. split; [exact Hfiles |]. split; [exact Hdirs |].
  destruct b.
  - destruct name as [name |].
    + pose proof (Init_file_run w t name) as Hrun. simpl in Hrun.
      now rewrite Hrun.
    + now rewrite Init_absent_run.
  - now rewrite Init_console_run.
Qed.

Lemma Init_keeps_files_and_output_witness :
  os_files (os twice_file_world) !! "/home/u/Log/app.log" = Some "".
Proof.
  refine (proj1 (proj2 (proj2
    (Init_keeps_files_and_output file_world true true (Some "app.log"))))
    "/home/u/Log/app.log" "" _).
  vm_compute. reflexivity.
Defined.

(** ** What logging and shutdown leave alone *)

Lemma Sys_write_same_but_files (fd : Z) (data : string) (o : OS) :
  same_but_files o (snd (Sys.write fd data o)).
Proof.
  unfold Sys.write.
  destruct (os_fds o !! fd); simpl; [| apply same_but_files_refl].
  unfold same_but_files. simpl. tauto.
Qed.

(** X11: [Log] never opens, closes or creates anything: after any call
    the descriptor table, the directories and the working directory are
    as before and the call made no [open], [close] or [mkdir].  A file
    logger leaves standard output alone, a console logger leaves every
    file alone. *)
Theorem Log_leaves_resources
    (w : World) (nLevel : Z) (file func : string) (line : Z)
    (fmt : string) (args : list fmt_arg) :
  let w' := snd (Log nLevel file func line fmt args w) in
  os_fds (os w') = os_fds (os w)
  /\ os_dirs (os w') = os_dirs (os w)
  /\ os_cwd (os w') = os_cwd (os w)
  /\ existsb is_resource_event
       (events_of (Log nLevel file func line fmt args) w) = false
  /\ (m_bToFile (logger w) = true -> os_stdout (os w') = os_stdout (os w))
  /\ (m_bToFile (logger w) = false -> os_files (os w') = os_files (os w)).
Proof.
  intros w'. subst w'. rewrite Log_events, Log_run. simpl.
  destruct (nLevel <=? _); simpl; [auto 10 |].
  destruct (m_bToFile (logger w)); simpl.
  - destruct (m_iLogFile (logger w) =? -1); simpl; [auto 10 |].
    destruct (Sys_write_same_but_files (m_iLogFile (logger w))
                (log_line (os w) (m_bTruncateLongLog (logger w)) nLevel
                   file func line fmt args) (os w))
      as (Hcwd & Hdirs & Hfds & _ & Hout & _).
    repeat (split; [assumption || reflexivity |]).
    split; [auto | discriminate].
  - repeat (split; [reflexivity |]). split; [discriminate | auto].
Qed.

Lemma Log_leaves_resources_witness :
  os_stdout (os (snd (do_log sample_call file_world)))
  = os_stdout (os file_world)
  /\ os_files (os (snd (do_log sample_call console_world)))
     = os_files (os console_world).
Proof.
  split.
  - refine (proj1 (proj2 (proj2 (proj2 (proj2
      (Log_leaves_resources file_world (lc_level sample_call)
         (lc_file sample_call) (lc_func sample_call) (lc_line sample_call)
         (lc_fmt sample_call) (lc_args sample_call)))))) _).
    vm_compute. reflexivity.
  - refine (proj2 (proj2 (proj2 (proj2 (proj2
      (Log_leaves_resources console_world (lc_level sample_call)
         (lc_file sample_call) (lc_func sample_call) (lc_line sample_call)
         (lc_fmt sample_call) (lc_args sample_call)))))) _).
    vm_compute. reflexivity.
Defined.

(** X13: [UnInit] touches the stored handle only: every other
    descriptor is as before, and so are the files, the directories,
    standard output and the three configuration fields besides the
    handle. *)
Theorem UnInit_closes_only_stored_handle (w : World) :
  let w' := snd (UnInit w) in
  (forall fd, fd <> m_iLogFile (logger w) ->
              os_fds (os w') !! fd = os_fds (os w) !! fd)
  /\ os_files (os w') = os_files (os w)
  /\ os_dirs (os w') = os_dirs (os w)
  /\ os_stdout (os w') = os_stdout (os w)
  /\ m_bToFile (logger w') = m_bToFile (logger w)
  /\ m_bTruncateLongLog (logger w') = m_bTruncateLongLog (logger w)
  /\ m_nLogLevel (logger w') = m_nLogLevel (logger w).
Proof.
  intros w'. subst w'.
  split.
  - intros fd Hfd. rewrite UnInit_fds.
    destruct (m_iLogFile (logger w) =? -1); [reflexivity |].
    now apply lookup_delete_ne.
  - rewrite UnInit_run.
    destruct (m_iLogFile (logger w) =? -1); simpl; [auto 10 |].
    unfold Sys.close.
    destruct (os_fds (os w) !! m_iLogFile (logger w)); simpl; auto 10.
Qed.

Lemma UnInit_closes_only_stored_handle_witness :
  os_fds (os (snd (UnInit twice_file_world))) !! 3
  = os_fds (os twice_file_world) !! 3.
Proof.
  refine (proj1 (UnInit_closes_only_stored_handle twice_file_world) 3 _).
  vm_compute. discriminate.
Defined.

(** ** Destinations *)

(** X1: [Init] for the console never fails and ignores the file name:
    it makes no system call and keeps a stored handle and its open
    descriptor.  The calls that follow print their lines to standard
    output in call order and leave every file alone, also the one the
    stored handle refers to. *)
Theorem Init_console_then_logs_print
    (w : World) (t : bool) (name : option string) (cs : list log_call) :
  let w1 := snd (Init false t name w) in
  let w2 := snd (run_logs cs w1) in
  fst (Init false t name w) = true
  /\ events_of (Init false t name) w = []
  /\ fst (run_logs cs w1) = map (passes (logger w1)) cs
  /\ os_stdout (os w2) = os_stdout (os w) ++ lines_of (os w) (logger w1) cs
  /\ os_files (os w2) = os_files (os w)
  /\ os_fds (os w2) = os_fds (os w)
  /\ m_iLogFile (logger w2) = m_iLogFile (logger w).
Proof.
  intros w1 w2. subst w1 w2.
  assert (events_of (Init false t name) w = []) as Hev
    by (unfold events_of; rewrite Init_console_run; simpl; apply drop_all).
  rewrite Init_console_run in *. simpl.
  set (w1 := {| logger := configured (logger w) false t
                            (m_iLogFile (logger w));
                os := os w; trace := trace w |}).
  destruct (run_logs_console cs w1 eq_refl) as (Hb & Hs & Ho).
  split; [reflexivity |]. split; [exact Hev |]. split; [exact Hb |].
  rewrite Ho, Hs. simpl. auto.
Qed.

(** X10: a logger that was never initialised (the static initialisers
    of lines 21-28) logs to the console: every call with a level above
    [LOG_NONE] returns true and prints one line with the body in full,
    whatever its length. *)
Theorem Log_before_Init_prints
    (w : World) (nLevel : Z) (file func : string) (line : Z)
    (fmt : string) (args : list fmt_arg) :
  logger w = initial_logger ->
  nLevel > level_value LOG_NONE ->
  let text :=
    log_header (timestamp_of (os w)) nLevel (os_tid (os w)) file line func
    ++ format_string fmt args ++ CRLF in
  fst (Log nLevel file func line fmt args w) = true
  /\ events_of (Log nLevel file func line fmt args) w
     = [EvGettimeofday; EvPthreadSelf; EvPrintf text]
  /\ os_stdout (os (snd (Log nLevel file func line fmt args w)))
     = os_stdout (os w) ++ text.
Proof.
  intros Hinit Hlevel text. subst text.
  rewrite Log_events, Log_run. simpl. rewrite Hinit. simpl.
  destruct (Z.leb_spec nLevel 0) as [H | _]; [simpl in Hlevel; lia |].
  unfold log_line. simpl. auto.
Qed.

Lemma Log_before_Init_prints_witness :
  fst (do_log sample_call sample_world) = true.
Proof.
  refine (proj1 (Log_before_Init_prints sample_world (lc_level sample_call)
            (lc_file sample_call) (lc_func sample_call) (lc_line sample_call)
            (lc_fmt sample_call) (lc_args sample_call) _ _));
    vm_compute; reflexivity.
Defined.

(** ** Body and level *)

(** X8: with the truncation flag clear the body is emitted in full,
    whatever its length: the one line of a successful call is the
    header, the whole formatted body and the terminator. *)
Theorem Log_keeps_body_without_truncation
    (w : World) (nLevel : Z) (file func : string) (line : Z)
    (fmt : string) (args : list fmt_arg) :
  m_bTruncateLongLog (logger w) = false ->
  nLevel > level_value (m_nLogLevel (logger w)) ->
  sink_usable (logger w) = true ->
  let body := format_string fmt args in
  let header :=
    log_header (timestamp_of (os w)) nLevel (os_tid (os w)) file line func in
  output_of (events_of (Log nLevel file func line fmt args) w)
    = [header ++ body ++ CRLF]
  /\ String.length (header ++ body ++ CRLF)
     = (String.length header + String.length body + 2)%nat.
Proof.
  intros Htrunc Hlevel Husable body header. split.
  - rewrite Log_events. simpl.
    destruct (Z.leb_spec nLevel (level_value (m_nLogLevel (logger w))));
      [lia |].
    unfold log_line. rewrite Htrunc.
    unfold sink_usable in Husable.
    destruct (m_bToFile (logger w)); simpl in *.
    + destruct (m_iLogFile (logger w) =? -1); [discriminate | reflexivity].
    + reflexivity.
  - rewrite !length_append. simpl. lia.
Qed.

Lemma Log_keeps_body_without_truncation_witness :
  output_of (events_of
     (Log 3 "main.cpp" "main" 42 "%0500d" [ArgInt 7]) sample_world)
  = [log_header (timestamp_of (os sample_world)) 3
       (os_tid (os sample_world)) "main.cpp" 42 "main"
     ++ format_string "%0500d" [ArgInt 7] ++ CRLF].
Proof.
  refine (proj1 (Log_keeps_body_without_truncation sample_world 3
            "main.cpp" "main" 42 "%0500d" [ArgInt 7] _ _ _));
    vm_compute; reflexivity.
Defined.

Lemma level_value_range (l : SWLOG_LEVEL) :
  level_value LOG_NONE <= level_value l <= level_value LOG_INFO.
Proof. destruct l; simpl; lia. Qed.

(** X9: levels outside the enumeration.  A level at or below
    [LOG_NONE] is filtered whatever the threshold.  A level above
    [LOG_INFO] passes every threshold; on a usable sink the call
    returns true and the one line it emits carries an empty tag: the
    time stamp and the thread id are two spaces apart. *)
Theorem Log_levels_outside_enumeration
    (w : World) (nLevel : Z) (file func : string) (line : Z)
    (fmt : string) (args : list fmt_arg) :
  (nLevel <= level_value LOG_NONE ->
   Log nLevel file func line fmt args w = (false, w))
  /\ (nLevel > level_value LOG_INFO ->
      sink_usable (logger w) = true ->
      let body := format_string fmt args in
      fst (Log nLevel file func line fmt args w) = true
      /\ output_of (events_of (Log nLevel file func line fmt args) w)
         = [timestamp_of (os w) ++ "  [ThreadID: "
            ++ Text.udec (Text.wrap_u32 (os_tid (os w)))
            ++ "] [" ++ file ++ " Line: "
            ++ Text.udec (Text.wrap_u32 line)
            ++ "] [Function: " ++ func ++ "] Message: "
            ++ (if m_bTruncateLongLog (logger w)
                then substr 0 MAX_LINE_LENGTH body else body)
            ++ CRLF]).
Proof.
  pose proof (level_value_range (m_nLogLevel (logger w))) as Hrange.
  split.
  - intros Hlow. rewrite Log_run. simpl.
    destruct (Z.leb_spec nLevel (level_value (m_nLogLevel (logger w))));
      [reflexivity | lia].
  - intros Hhigh Husable body. subst body.
    assert (level_tag nLevel = "") as Htag.
    { unfold level_tag. simpl in Hhigh.
      destruct (Z.eqb_spec nLevel (level_value LOG_INFO)) as [Heq | _];
        [simpl in Heq; lia |].
      destruct (Z.eqb_spec nLevel (level_value LOG_WARNING)) as [Heq | _];
        [simpl in Heq; lia |].
      destruct (Z.eqb_spec nLevel (level_value LOG_ERROR)) as [Heq | _];
        [simpl in Heq; lia |].
      reflexivity. }
    assert (log_line (os w) (m_bTruncateLongLog (logger w)) nLevel file func
              line fmt args
            = timestamp_of (os w) ++ "  [ThreadID: "
              ++ Text.udec (Text.wrap_u32 (os_tid (os w)))
              ++ "] [" ++ file ++ " Line: "
              ++ Text.udec (Text.wrap_u32 line)
              ++ "] [Function: " ++ func ++ "] Message: "
              ++ (if m_bTruncateLongLog (logger w)
                  then substr 0 MAX_LINE_LENGTH (format_string fmt args)
                  else format_string fmt args)
              ++ CRLF) as Hline.
    { unfold log_line, log_header. rewrite Htag.
      rewrite !append_assoc. reflexivity. }
    rewrite Log_events, Log_run. simpl.
    destruct (Z.leb_spec nLevel (level_value (m_nLogLevel (logger w))));
      [lia |].
    rewrite Hline.
    unfold sink_usable in Husable.
    destruct (m_bToFile (logger w)); simpl in *; [| auto].
    destruct (m_iLogFile (logger w) =? -1); [discriminate | auto].
Qed.

Lemma Log_levels_outside_enumeration_witness :
  Log 0 "main.cpp" "main" 42 "x" [] console_world = (false, console_world)
  /\ fst (Log 7 "main.cpp" "main" 42 "x" []
            (snd (set_m_nLogLevel LOG_INFO console_world))) = true.
Proof.
  split.
  - refine (proj1 (Log_levels_outside_enumeration console_world 0
              "main.cpp" "main" 42 "x" []) _).
    vm_compute. discriminate.
  - refine (proj1 (proj2 (Log_levels_outside_enumeration
              (snd (set_m_nLogLevel LOG_INFO console_world)) 7
              "main.cpp" "main" 42 "x" []) _ _));
      vm_compute; reflexivity.
Defined.

(** ** The time stamp on the two builds *)

Lemma format_systemtime (y mo d h mi s ms : Z) :
  format_string "[%04d-%02d-%02d %02d:%02d:%02d %04d]"
    [ArgInt y; ArgInt mo; ArgInt d; ArgInt h; ArgInt mi; ArgInt s; ArgInt ms]
  = "[" ++ Text.sdec true 4 (Text.wrap_i32 y) ++ "-"
    ++ Text.sdec true 2 (Text.wrap_i32 mo) ++ "-"
    ++ Text.sdec true 2 (Text.wrap_i32 d) ++ " "
    ++ Text.sdec true 2 (Text.wrap_i32 h) ++ ":"
    ++ Text.sdec true 2 (Text.wrap_i32 mi) ++ ":"
    ++ Text.sdec true 2 (Text.wrap_i32 s) ++ " "
    ++ Text.sdec true 4 (Text.wrap_i32 ms) ++ "]".
Proof. unfold format_string. simpl. reflexivity. Qed.

Lemma sdec_four_digits (n : Z) :
  0 <= n <= 9999 -> Text.sdec true 4 (Text.wrap_i32 n) = Text.fixed_dec 4 n.
Proof.
  intros Hn. rewrite TextFacts.wrap_i32_small by lia.
  apply TextFacts.sdec_zero_nonneg; [lia |].
  change (10 ^ Z.of_nat 4) with 10000. lia.
Qed.

Lemma sdec_two_digits_wrapped (n : Z) :
  0 <= n <= 99 -> Text.sdec true 2 (Text.wrap_i32 n) = Text.fixed_dec 2 n.
Proof.
  intros Hn. rewrite TextFacts.wrap_i32_small by lia.
  now apply sdec_two_digits.
Qed.

Lemma GetLogTime_win64_text (st : SYSTEMTIME) :
  0 <= wYear st <= 9999 -> 0 <= wMonth st <= 99 -> 0 <= wDay st <= 99 ->
  0 <= wHour st <= 99 -> 0 <= wMinute st <= 99 -> 0 <= wSecond st <= 99 ->
  0 <= wMilliseconds st <= 9999 ->
  GetLogTime_win64 st
  = "[" ++ Text.fixed_dec 4 (wYear st) ++ "-"
    ++ Text.fixed_dec 2 (wMonth st) ++ "-"
    ++ Text.fixed_dec 2 (wDay st) ++ " "
    ++ Text.fixed_dec 2 (wHour st) ++ ":"
    ++ Text.fixed_dec 2 (wMinute st) ++ ":"
    ++ Text.fixed_dec 2 (wSecond st) ++ " "
    ++ Text.fixed_dec 4 (wMilliseconds st) ++ "]".
Proof.
  intros Hy Hmo Hd Hh Hmi Hs Hms.
  unfold GetLogTime_win64. rewrite format_systemtime.
  rewrite !sdec_four_digits, !sdec_two_digits_wrapped by lia.
  reflexivity.
Qed.

(** The text of the POSIX build, from the clock. *)
Lemma timestamp_of_text (o : OS) :
  clock_wf o ->
  let t := os_localtime o (tv_sec (os_now o)) in
  timestamp_of o
  = "[" ++ Text.fixed_dec 4 (tm_year t + 1900) ++ "-"
    ++ Text.fixed_dec 2 (tm_mon t + 1) ++ "-"
    ++ Text.fixed_dec 2 (tm_mday t) ++ " "
    ++ Text.fixed_dec 2 (tm_hour t) ++ ":"
    ++ Text.fixed_dec 2 (tm_min t) ++ ":"
    ++ Text.fixed_dec 2 (tm_sec t) ++ " "
    ++ Text.fixed_dec 4 (tv_usec (os_now o) / 1000) ++ "]".
Proof.
  intros (Hus & Hy & Hmo & Hd & Hh & Hmi & Hs) t.
  assert (0 <= tv_usec (os_now o) / 1000 <= 999) as Hms.
  { split; [apply Z.div_pos; lia |].
    assert (tv_usec (os_now o) / 1000 < 1000)
      by (apply Z.div_lt_upper_bound; lia). lia. }
  unfold timestamp_of. fold t.
  rewrite (strftime_layout t Hy Hmo Hd Hh Hmi Hs).
  rewrite Z.quot_div_nonneg by lia.
  rewrite format_timestamp, sdec_four_digits by lia.
  rewrite !append_assoc. reflexivity.
Qed.

(** X14: the [_WIN64] build of [GetLogTime] prints a [SYSTEMTIME] in
    the same 26-character layout [[YYYY-MM-DD HH:MM:SS mmmm]], every
    field zero-padded, the milliseconds (0 to 999) in four digits. *)
Theorem GetLogTime_win64_layout (st : SYSTEMTIME) :
  systemtime_wf st ->
  GetLogTime_win64 st
  = "[" ++ Text.fixed_dec 4 (wYear st) ++ "-"
    ++ Text.fixed_dec 2 (wMonth st) ++ "-"
    ++ Text.fixed_dec 2 (wDay st) ++ " "
    ++ Text.fixed_dec 2 (wHour st) ++ ":"
    ++ Text.fixed_dec 2 (wMinute st) ++ ":"
    ++ Text.fixed_dec 2 (wSecond st) ++ " "
    ++ "0" ++ Text.fixed_dec 3 (wMilliseconds st) ++ "]"
  /\ String.length (GetLogTime_win64 st) = 26%nat.
Proof.
  intros (Hy & Hmo & Hd & Hh & Hmi & Hs & Hms).
  rewrite (GetLogTime_win64_text st) by lia.
  assert (Text.fixed_dec 4 (wMilliseconds st)
          = "0" ++ Text.fixed_dec 3 (wMilliseconds st)) as ->.
  { change 4%nat with (1 + 3)%nat.
    apply TextFacts.fixed_dec_small.
    change (10 ^ Z.of_nat 3) with 1000. lia. }
  split; [reflexivity |].
  repeat (rewrite length_append, ?TextFacts.fixed_dec_length;
          simpl String.length).
  reflexivity.
Qed.

Lemma GetLogTime_win64_layout_witness :
  GetLogTime_win64 (systemtime_of sample_os) = "[2022-01-11 09:05:07 0083]".
Proof.
  assert (systemtime_wf (systemtime_of sample_os)) as Hwf
    by (vm_compute; repeat split; discriminate).
  rewrite (proj1 (GetLogTime_win64_layout _ Hwf)).
  vm_compute. reflexivity.
Defined.

(** X15: for one and the same local time, within the POSIX ranges and
    with a four-digit year, the two builds of [GetLogTime] return the
    same text. *)
Theorem GetLogTime_builds_agree (w : World) :
  clock_wf (os w) ->
  GetLogTime_win64 (systemtime_of (os w)) = fst (GetLogTime w).
Proof.
  intros Hwf. pose proof Hwf as (Hus & Hy & Hmo & Hd & Hh & Hmi & Hs).
  assert (0 <= tv_usec (os_now (os w)) / 1000)
    by (apply Z.div_pos; lia).
  assert (tv_usec (os_now (os w)) / 1000 < 1000)
    by (apply Z.div_lt_upper_bound; lia).
  rewrite GetLogTime_run. simpl fst.
  rewrite (timestamp_of_text _ Hwf).
  rewrite GetLogTime_win64_text; unfold systemtime_of; simpl; try lia.
  reflexivity.
Qed.

Lemma GetLogTime_builds_agree_witness :
  GetLogTime_win64 (systemtime_of (os sample_world))
  = fst (GetLogTime sample_world).
Proof.
  apply (GetLogTime_builds_agree sample_world).
  vm_compute; repeat split; discriminate.
Defined.
